(** * The match lifecycle coordinator of [gameapp/match_objects/match.py]

    A shallow embedding of the class [Match]: its fields become a record,
    its methods become computations in a small monad that threads the
    session, may raise a Python exception, and collects the calls made to
    the collaborators (socket gateway, ORM, statistics service, registry,
    runner, timer) in the order the code makes them. *)

From Stdlib Require Import ZArith List String Bool Lia.
Import ListNotations.
Open Scope string_scope.
Open Scope list_scope.
Open Scope Z_scope.

(** ** Data model *)

(** [class MatchStage(enum.Enum)]. *)
Inductive MatchStage := NOT_STARTED | WAITING | MATCH | FINISHED.

(** The [value] of each member of the enumeration. *)
Definition stage_value (st : MatchStage) : Z :=
  match st with
  | NOT_STARTED => 0
  | WAITING => 1
  | MATCH => 2
  | FINISHED => 3
  end.

Definition stage_eqb (a b : MatchStage) : bool := stage_value a =? stage_value b.

(** [MatchUser]: the typed dict with keys ["id"], ["sid"] and ["is_ai"]. *)
Record MatchUser := mkUser { uid : Z; sid : string; is_ai : bool }.

(** [TempMatchRoom] and [TempMatch]: the fields of the ORM rows that
    [match.py] reads. *)
Record TempMatchRoom := mkRoom { room_id : Z; room_name_of : string }.

#[warnings="-register-all"]
Inductive TempMatch :=
  mkTempMatch (id : Z) (room : TempMatchRoom)
              (winner : option TempMatch) (start : option Z).

Definition match_id (m : TempMatch) : Z :=
  let 'mkTempMatch i _ _ _ := m in i.
Definition match_room (m : TempMatch) : TempMatchRoom :=
  let 'mkTempMatch _ r _ _ := m in r.
Definition winner_match (m : TempMatch) : option TempMatch :=
  let 'mkTempMatch _ _ w _ := m in w.
Definition start_at (m : TempMatch) : option Z :=
  let 'mkTempMatch _ _ _ s := m in s.

(** Modelled from the spec: [MatchProcess] (process.py is not among the
    sources) exposes [start], [stop] and [get_scores].  The handle records
    what the coordinator built it from and whether it has been started and
    not stopped; its scores live in the runner's own thread and are read
    through [get_scores] of [Env]. *)
Record MatchProcess := mkProcess { proc_with_ai : bool; proc_running : bool }.

(** Modelled from the spec: [WaitingProcess] (timeout.py is not among the
    sources) is a cancellable one-shot delay; [start] arms it and [stop]
    cancels a pending fire with no further effect. *)
Record WaitingProcess := mkWaiting { armed : bool }.

Inductive Field := FStage | FUsers | FOnline | FMatchProcess | FWaitingProcess.
Inductive Access := Rd (f : Field) | Wr (f : Field).

(** The attributes of a [Match] object.  [lock] is the state of
    [threading.Lock()]; [unguarded] is a ghost field that records every read
    or write of [stage], [users], [online], [match_process] or
    [waiting_process] made while the lock is not held. *)
Record Match := mkMatch {
  stage : MatchStage;
  match_ : TempMatch;
  room_name : string;
  is_with_ai : bool;
  users : list MatchUser;
  online : list bool;
  match_process : option MatchProcess;
  waiting_process : WaitingProcess;
  lock : bool;
  unguarded : list Access
}.

(** What a method reads from outside the object during one call: the
    constant [AI_ID] of [matchuser], the clock [now()], whether the response
    of [post] is [ok], and what [match_process.get_scores()] returns. *)
Record Env := mkEnv { AI_ID : Z; now : Z; post_ok : bool; get_scores : Z * Z }.

Inductive LogLevel := Info | Error.

(** The body of the POST to [USER_URL/_internal/dashboard].  Times are
    abstract instants; [play_time] is their difference. *)
Record Dashboard := mkDashboard {
  player1_id : Z; player1_score : Z;
  player2_id : Z; player2_score : Z;
  winner_id : Z; match_date : Z; play_time : Z
}.

Inductive Paddle := paddle1 | paddle2.

(** Calls to the collaborators, one constructor per call site kind. *)
Inductive Effect :=
| Log (lvl : LogLevel) (msg : string)
| EmitInit (paddleId : Paddle) (to : string)
| EnterRoom (s : string) (room : string)
| EmitGameOver (w : Paddle) (p1 p2 : Z) (room : string)
| SioDisconnect (s : string)
| Post (body : Dashboard)
| DeleteRoomUser (user_id : Z) (temp_match_room_id : Z)
| DeleteRoomUsersOf (user_id : Z)
| DeleteRoom (name : string)
| CreateMatchUser (user_id : Z) (temp_match_id : Z)
| MatchDecided (user : MatchUser) (next : TempMatch)
| DeleteMatchId (id : Z)
| TimerStart | TimerStop
| RunnerStart | RunnerStop.

Definition is_log (e : Effect) : bool :=
  match e with Log _ _ => true | _ => false end.

(** The calls that are not log lines. *)
Definition calls (t : list Effect) : list Effect :=
  filter (fun e => negb (is_log e)) t.

(** ** Python list indexing *)

(** The element at a non-negative position, counting from the head. *)
Fixpoint nth_z {A} (l : list A) (i : Z) : option A :=
  match l with
  | [] => None
  | x :: rest => if i =? 0 then Some x else nth_z rest (i - 1)
  end.

Fixpoint set_z {A} (l : list A) (i : Z) (v : A) : list A :=
  match l with
  | [] => []
  | x :: rest => if i =? 0 then v :: rest else x :: set_z rest (i - 1) v
  end.

(** [l[i]] for a Python int [i]: negative indices count from the end, and
    an index outside [-len, len) raises [IndexError] (here [None]). *)
Definition py_index {A} (l : list A) (i : Z) : option A :=
  let n := Z.of_nat (List.length l) in
  if (0 <=? i) && (i <? n) then nth_z l i
  else if (- n <=? i) && (i <? 0) then nth_z l (i + n)
  else None.

(** [l[i] = v]. *)
Definition py_setitem {A} (l : list A) (i : Z) (v : A) : option (list A) :=
  let n := Z.of_nat (List.length l) in
  if (0 <=? i) && (i <? n) then Some (set_z l i v)
  else if (- n <=? i) && (i <? 0) then Some (set_z l (i + n) v)
  else None.

(** ** The monad of a method call *)

Inductive Exn := IndexError | AssertionError | AttributeError.

(** A call returns, raises, or blocks for ever on a lock already held. *)
Inductive Outcome (A : Type) :=
| Ret (a : A)
| Raise (e : Exn)
| Blocked.
Arguments Ret {A} a.
Arguments Raise {A} e.
Arguments Blocked {A}.

Definition M (A : Type) : Type := Match -> Outcome A * Match * list Effect.

Definition ret {A} (a : A) : M A := fun s => (Ret a, s, []).

Definition bind {A B} (m : M A) (f : A -> M B) : M B :=
  fun s =>
    match m s with
    | (Ret a, s1, t1) => let '(o, s2, t2) := f a s1 in (o, s2, t1 ++ t2)
    | (Raise e, s1, t1) => (Raise e, s1, t1)
    | (Blocked, s1, t1) => (Blocked, s1, t1)
    end.

Notation "x <- m ;; k" := (bind m (fun x => k))
  (at level 61, m at next level, right associativity).
Notation "m ;; k" := (bind m (fun _ => k))
  (at level 61, right associativity).

Definition raise {A} (e : Exn) : M A := fun s => (Raise e, s, []).
Definition effect (e : Effect) : M unit := fun s => (Ret tt, s, [e]).
Definition log (lvl : LogLevel) (msg : string) : M unit := effect (Log lvl msg).

Definition lift_index {A} (o : option A) : M A :=
  match o with Some a => ret a | None => raise IndexError end.

(** *** Field access *)

Definition set_stage (v : MatchStage) (s : Match) : Match :=
  mkMatch v (match_ s) (room_name s) (is_with_ai s) (users s) (online s)
          (match_process s) (waiting_process s) (lock s) (unguarded s).
Definition set_users (v : list MatchUser) (s : Match) : Match :=
  mkMatch (stage s) (match_ s) (room_name s) (is_with_ai s) v (online s)
          (match_process s) (waiting_process s) (lock s) (unguarded s).
Definition set_online (v : list bool) (s : Match) : Match :=
  mkMatch (stage s) (match_ s) (room_name s) (is_with_ai s) (users s) v
          (match_process s) (waiting_process s) (lock s) (unguarded s).
Definition set_match_process (v : option MatchProcess) (s : Match) : Match :=
  mkMatch (stage s) (match_ s) (room_name s) (is_with_ai s) (users s) (online s)
          v (waiting_process s) (lock s) (unguarded s).
Definition set_waiting_process (v : WaitingProcess) (s : Match) : Match :=
  mkMatch (stage s) (match_ s) (room_name s) (is_with_ai s) (users s) (online s)
          (match_process s) v (lock s) (unguarded s).
Definition set_lock (v : bool) (s : Match) : Match :=
  mkMatch (stage s) (match_ s) (room_name s) (is_with_ai s) (users s) (online s)
          (match_process s) (waiting_process s) v (unguarded s).
Definition set_unguarded (v : list Access) (s : Match) : Match :=
  mkMatch (stage s) (match_ s) (room_name s) (is_with_ai s) (users s) (online s)
          (match_process s) (waiting_process s) (lock s) v.

(** Record an access made without the lock. *)
Definition touch (a : Access) (s : Match) : Match :=
  if lock s then s else set_unguarded (unguarded s ++ [a]) s.

Definition rd {A} (f : Field) (proj : Match -> A) : M A :=
  fun s => (Ret (proj s), touch (Rd f) s, []).
Definition wr (f : Field) (upd : Match -> Match) : M unit :=
  fun s => (Ret tt, upd (touch (Wr f) s), []).

(** Immutable attributes ([match], [room_name], [is_with_ai]). *)
Definition attr {A} (proj : Match -> A) : M A := fun s => (Ret (proj s), s, []).

(** [with self.lock: body]: the lock is released however the body ends. *)
Definition with_lock {A} (body : M A) : M A :=
  fun s =>
    if lock s then (Blocked, s, [])
    else let '(o, s1, t) := body (set_lock true s) in (o, set_lock false s1, t).

(** ** The methods of [Match] *)

Definition len {A} (l : list A) : Z := Z.of_nat (List.length l).

(** [Match.__init__]; [get_match_name] comes from [gameapp.utils]. *)
Definition Match_init (get_match_name : TempMatch -> string)
    (m : TempMatch) (with_ai : bool) : Match :=
  mkMatch NOT_STARTED m (get_match_name m) with_ai [] [] None
          (mkWaiting false) false [].

(** [self.waiting_process.start()] and [self.waiting_process.stop()]. *)
Definition waiting_start : M unit :=
  wr FWaitingProcess (set_waiting_process (mkWaiting true)) ;;
  effect TimerStart.

Definition waiting_stop : M unit :=
  wr FWaitingProcess (set_waiting_process (mkWaiting false)) ;;
  effect TimerStop.

(** [self.match_process.start()] and [self.match_process.stop()]. *)
Definition process_switch (on : bool) (e : Effect) : M unit :=
  mp <- rd FMatchProcess match_process ;;
  match mp with
  | Some p =>
      wr FMatchProcess (set_match_process (Some (mkProcess (proc_with_ai p) on))) ;;
      effect e
  | None => raise AttributeError
  end.

Definition process_start : M unit := process_switch true RunnerStart.
Definition process_stop : M unit := process_switch false RunnerStop.

Definition set_stage_waiting : M unit :=
  wr FStage (set_stage WAITING) ;;
  waiting_start.

Definition set_stage_match : M unit :=
  wr FStage (set_stage MATCH) ;;
  w <- attr is_with_ai ;;
  wr FMatchProcess (set_match_process (Some (mkProcess w false))) ;;
  process_start.

Fixpoint find_idx (us : list MatchUser) (id : Z) (i : Z) : Z :=
  match us with
  | [] => -1
  | u :: rest => if uid u =? id then i else find_idx rest id (i + 1)
  end.

Definition get_user_idx (user : MatchUser) : M Z :=
  us <- rd FUsers users ;;
  ret (find_idx us (uid user) 0).

(** [self.users[i]] and [self.online[i]]. *)
Definition users_at (i : Z) : M MatchUser :=
  us <- rd FUsers users ;; lift_index (py_index us i).

Definition online_at (i : Z) : M bool :=
  on <- rd FOnline online ;; lift_index (py_index on i).

Definition set_lose (loser_idx : Z) : M unit :=
  loser <- users_at loser_idx ;;
  m <- attr match_ ;;
  effect (DeleteRoomUser (uid loser) (room_id (match_room m))) ;;
  wr FStage (set_stage FINISHED).

Definition paddle_of (idx : Z) : Paddle :=
  if idx =? 0 then paddle1 else paddle2.

Definition set_win (E : Env) (winner_idx : Z) : M unit :=
  let end_at := now E in
  winner <- users_at winner_idx ;;
  loser <- users_at (1 - winner_idx) ;;
  m <- attr match_ ;;
  log Info "winner match" ;;
  mp <- rd FMatchProcess match_process ;;
  let scores := match mp with Some _ => get_scores E | None => (0, 0) end in
  u0 <- users_at 0 ;;
  u1 <- users_at 1 ;;
  let json_obj :=
    mkDashboard (uid u0) (fst scores) (uid u1) (snd scores) (uid winner)
      (match start_at m with Some t => t | None => end_at end)
      (match start_at m with Some t => end_at - t | None => 0 end) in
  room <- attr room_name ;;
  effect (EmitGameOver (paddle_of winner_idx) (fst scores) (snd scores) room) ;;
  effect (Post json_obj) ;;
  (if post_ok E then ret tt else log Error "resp is not ok") ;;
  match winner_match m with
  | Some next =>
      log Info "winner match id" ;;
      effect (CreateMatchUser (uid winner) (match_id next)) ;;
      effect (MatchDecided winner next)
  | None =>
      log Info "deleting winner id" ;;
      effect (DeleteRoomUsersOf (uid winner)) ;;
      log Info "Deleting match room name" ;;
      effect (DeleteRoom (room_name_of (match_room m)))
  end ;;
  effect (DeleteMatchId (match_id m)) ;;
  wr FStage (set_stage FINISHED).

Definition set_win_and_lose (E : Env) (winner_idx : Z) : M unit :=
  let loser_idx := 1 - winner_idx in
  log Info "set win and lose" ;;
  set_win E winner_idx ;;
  set_lose loser_idx ;;
  loser <- users_at loser_idx ;;
  effect (SioDisconnect (sid loser)).

Definition user_decided (user : MatchUser) : M bool :=
  with_lock (
    log Info "user is decided to be in room" ;;
    us <- rd FUsers users ;;
    if 2 <=? len us then
      log Info "user could not be in room, because there already exists users" ;;
      ret false
    else
      wr FUsers (fun s => set_users (users s ++ [user]) s) ;;
      wr FOnline (fun s => set_online (online s ++ [false]) s) ;;
      us' <- rd FUsers users ;;
      (if len us' =? 2 then
         o0 <- online_at 0 ;;
         if o0 then set_stage_waiting else ret tt
       else ret tt) ;;
      ret true).

Definition user_connected (E : Env) (user : MatchUser) : M bool :=
  log Info "user is connected to room" ;;
  with_lock (
    idx <- get_user_idx user ;;
    if idx =? -1 then
      log Error "user is connected, but the user is not found" ;;
      ret false
    else
      on <- online_at idx ;;
      if on then
        log Error "user is connected, but the user is already connected" ;;
        ret true
      else
        effect (EmitInit (paddle_of idx) (sid user)) ;;
        room <- attr room_name ;;
        effect (EnterRoom (sid user) room) ;;
        us <- rd FUsers users ;;
        us' <- lift_index (py_setitem us idx user) ;;
        wr FUsers (set_users us') ;;
        ol <- rd FOnline online ;;
        ol' <- lift_index (py_setitem ol idx true) ;;
        wr FOnline (set_online ol') ;;
        st <- rd FStage stage ;;
        if stage_eqb st FINISHED then
          log Info "user is connected, but the stage is marked as FINISHED, so the user wins automatically" ;;
          set_win E idx ;;
          ret true
        else
          ol2 <- rd FOnline online ;;
          (if len ol2 =? 2 then
             o0 <- online_at 0 ;;
             o1 <- (if o0 then online_at 1 else ret true) ;;
             if negb o0 || negb o1 then set_stage_waiting
             else waiting_stop ;; set_stage_match
           else ret tt) ;;
          ret true).

(** [ai_connected] in three segments, in source order: the length check and
    the two appends come before [with self.lock]. *)
Definition ai_connected_check : M unit :=
  log Info "ai is connected!" ;;
  us <- rd FUsers users ;;
  log Info "When AI is connected, users len" ;;
  us' <- rd FUsers users ;;
  if negb (len us' =? 1) then
    log Error "When AI is connected, self.users len is not 1!"
  else ret tt.

Definition ai_connected_bind (E : Env) (s_id : string) : M unit :=
  wr FUsers (fun s => set_users (users s ++ [mkUser (AI_ID E) s_id true]) s) ;;
  wr FOnline (fun s => set_online (online s ++ [true]) s).

Definition ai_connected_locked (s_id : string) : M unit :=
  with_lock (
    effect (EmitInit paddle2 s_id) ;;
    room <- attr room_name ;;
    effect (EnterRoom s_id room) ;;
    log Info "waiting process stop" ;;
    waiting_stop ;;
    log Info "match process start" ;;
    set_stage_match).

Definition ai_connected (E : Env) (s_id : string) : M unit :=
  ai_connected_check ;;
  ai_connected_bind E s_id ;;
  ai_connected_locked s_id.

Definition timed_out (E : Env) : M unit :=
  log Info "Match - timed out" ;;
  with_lock (
    st <- rd FStage stage ;;
    if negb (stage_eqb st WAITING) then ret tt
    else
      us <- rd FUsers users ;;
      (if negb (len us =? 2) then
         log Error "stage is WAITING, but the len of users is not 2"
       else ret tt) ;;
      o0 <- online_at 0 ;;
      both <- (if o0 then online_at 1 else ret false) ;;
      if both then ret tt
      else
        wr FStage (set_stage FINISHED) ;;
        w0 <- online_at 0 ;;
        let winner_idx := if w0 then 0 else 1 in
        set_win_and_lose E winner_idx).

Definition user_disconnected (E : Env) (user : MatchUser) : M unit :=
  with_lock (
    st <- rd FStage stage ;;
    log Info "user is disconnected" ;;
    match st with
    | NOT_STARTED | FINISHED =>
        log Info "but user is disconnected!"
    | WAITING =>
        idx <- get_user_idx user ;;
        if idx =? -1 then
          log Info "user is disconnected, but user could not be found in match"
        else
          on <- online_at idx ;;
          if on then
            waiting_stop ;;
            wr FStage (set_stage FINISHED) ;;
            set_lose idx
          else ret tt
    | MATCH =>
        mp <- rd FMatchProcess match_process ;;
        match mp with
        | None => raise AssertionError
        | Some _ =>
            loser_idx <- get_user_idx user ;;
            process_stop ;;
            wr FStage (set_stage FINISHED) ;;
            set_lose loser_idx ;;
            set_win E (1 - loser_idx)
        end
    end).

Definition alert_winner (E : Env) (winner_idx : Z) : M unit :=
  with_lock (
    st <- rd FStage stage ;;
    if stage_eqb st FINISHED then
      log Info "self.stage is already FINISHED, returning `alert_winner`"
    else
      log Info "self.stage is not FINISHED, setting FINISHED and set win and lose" ;;
      wr FStage (set_stage FINISHED) ;;
      set_win_and_lose E winner_idx).

(** ** Events *)

(** The six inbound events of a session. *)
Inductive Event :=
| DecideSeat (user : MatchUser)
| Connect (user : MatchUser)
| AiJoin (s_id : string)
| Disconnect (user : MatchUser)
| TimerFire
| RunnerConcluded (winner_idx : Z).

(** What a handler hands back: a bool, or Python's [None]. *)
Inductive Value := VBool (b : bool) | VNone.

Definition handle (E : Env) (ev : Event) : M Value :=
  match ev with
  | DecideSeat u => b <- user_decided u ;; ret (VBool b)
  | Connect u => b <- user_connected E u ;; ret (VBool b)
  | AiJoin s_id => ai_connected E s_id ;; ret VNone
  | Disconnect u => user_disconnected E u ;; ret VNone
  | TimerFire => timed_out E ;; ret VNone
  | RunnerConcluded w => alert_winner E w ;; ret VNone
  end.

(** Events applied in order to one [Match] object.  A handler that raises
    leaves the object as mutated so far; the next event finds it so. *)
Fixpoint run (E : Env) (evs : list Event) (s : Match)
  : Match * list Effect * list (Outcome Value) :=
  match evs with
  | [] => (s, [], [])
  | ev :: rest =>
      let '(o, s1, t1) := handle E ev s in
      let '(s2, t2, os) := run E rest s1 in
      (s2, t1 ++ t2, o :: os)
  end.

Definition final (r : Match * list Effect * list (Outcome Value)) : Match :=
  fst (fst r).
Definition trace (r : Match * list Effect * list (Outcome Value)) : list Effect :=
  snd (fst r).
Definition outcomes (r : Match * list Effect * list (Outcome Value))
  : list (Outcome Value) := snd r.

(** *** What a trace records *)

Definition is_game_over (e : Effect) : bool :=
  match e with EmitGameOver _ _ _ _ => true | _ => false end.
Definition is_post (e : Effect) : bool :=
  match e with Post _ => true | _ => false end.
Definition is_disconnect (e : Effect) : bool :=
  match e with SioDisconnect _ => true | _ => false end.
Definition is_room_user_delete (e : Effect) : bool :=
  match e with DeleteRoomUser _ _ => true | _ => false end.
Definition is_advance (e : Effect) : bool :=
  match e with CreateMatchUser _ _ => true | _ => false end.
Definition is_room_delete (e : Effect) : bool :=
  match e with DeleteRoom _ => true | _ => false end.

(** The seats [set_win] ran for, read off the match-concluded emissions. *)
Definition winners (t : list Effect) : list Paddle :=
  flat_map (fun e => match e with EmitGameOver w _ _ _ => [w] | _ => [] end) t.

(** ** The remaining functions of [match.py] *)

(** The loop of [is_user_connected] from position [idx] on: [online] is
    read only for an entry whose id matches. *)
Fixpoint scan_connected (us : list MatchUser) (idx : Z) (user_id : Z) : M bool :=
  match us with
  | [] => ret false
  | u :: rest =>
      if uid u =? user_id then
        on <- online_at idx ;;
        if on then ret true else scan_connected rest (idx + 1) user_id
      else scan_connected rest (idx + 1) user_id
  end.

Definition is_user_connected (user_id : Z) : M bool :=
  with_lock (
    us <- rd FUsers users ;;
    scan_connected us 0 user_id).

(** Modelled from the spec: [MatchDict] (matchdict.py is not among the
    sources) maps a match identifier to its [Match] object.  Here it is an
    association list read from the head, with [dict_set] replacing an
    existing key in place and adding a new one at the end. *)
Definition MatchDict := list (Z * Match).

Fixpoint dict_get (k : Z) (d : MatchDict) : option Match :=
  match d with
  | [] => None
  | (k', v) :: rest => if k' =? k then Some v else dict_get k rest
  end.

Fixpoint dict_set (k : Z) (v : Match) (d : MatchDict) : MatchDict :=
  match d with
  | [] => [(k, v)]
  | (k', v') :: rest =>
      if k' =? k then (k, v) :: rest else (k', v') :: dict_set k v rest
  end.

(** [match_decided(match_dict, user, match)]: the object found under
    [match.id], or a new [Match(match)] when the key is absent, runs
    [user_decided]; the mutated object stays in the dict.  The boolean that
    [user_decided] returns is dropped. *)
Definition match_decided (get_match_name : TempMatch -> string)
    (match_dict : MatchDict) (user : MatchUser) (m : TempMatch)
  : Outcome unit * MatchDict * list Effect :=
  let room_id := match_id m in
  let obj :=
    match dict_get room_id match_dict with
    | Some s => s
    | None => Match_init get_match_name m false
    end in
  let '(o, obj', t) := user_decided user obj in
  (match o with
   | Ret _ => Ret tt
   | Raise e => Raise e
   | Blocked => Blocked
   end,
   dict_set room_id obj' match_dict, t).

(** ** A concrete session used in examples *)

Definition env0 : Env := mkEnv 0 100 true (11, 7).
Definition room0 : TempMatchRoom := mkRoom 5 "room_5".
Definition final_match : TempMatch := mkTempMatch 1 room0 None None.
Definition next_match : TempMatch := mkTempMatch 2 room0 None None.
Definition semi_match : TempMatch := mkTempMatch 1 room0 (Some next_match) None.
Definition alice : MatchUser := mkUser 10 "sidA" false.
Definition bob : MatchUser := mkUser 20 "sidB" false.
Definition carol : MatchUser := mkUser 30 "sidC" false.
Definition session0 : Match := Match_init (fun _ => "match_1") final_match false.

(** Both seats decided, seat 0 connected, timer armed. *)
Definition waiting0 : Match :=
  final (run env0 [DecideSeat alice; DecideSeat bob; Connect alice] session0).

(** The same session with neither presence flag set. *)
Definition stalled0 : Match := set_online [false; false] waiting0.

(** Both seats connected and the runner started, seen from inside a
    handler that holds the lock. *)
Definition playing0 : Match :=
  final (run env0 [DecideSeat alice; DecideSeat bob; Connect alice;
                   Connect bob] session0).
Definition playing0_locked : Match := set_lock true playing0.

(** Seat 0 connected and then left during [WAITING]; seat 1 never came. *)
Definition abandoned0 : Match :=
  final (run env0 [DecideSeat alice; DecideSeat bob; Connect alice;
                   Disconnect alice] session0).

(** A session whose winner advances to [next_match]. *)
Definition semi0 : Match := Match_init (fun _ => "match_1") semi_match false.

(** One seat decided, nobody connected. *)
Definition one_seat0 : Match := final (run env0 [DecideSeat alice] session0).

(** Seat 0 wins by forfeit when the timer fires; seat 1 connects later. *)
Definition late_loser : list Event :=
  [DecideSeat alice; DecideSeat bob; Connect alice; TimerFire; Connect bob].

(** A full match won by seat 0 (the runner reports 11 to 7). *)
Definition full_match : list Event :=
  [DecideSeat alice; DecideSeat bob; Connect alice; Connect bob;
   RunnerConcluded 0].

(** A schedule of two threads: [ai_connected] has passed its length check
    when [user_decided] runs to completion on another thread; then
    [ai_connected] goes on. *)
Definition raced : M unit :=
  ai_connected_check ;;
  user_decided bob ;;
  ai_connected_bind env0 "sidAI" ;;
  ai_connected_locked "sidAI".

Definition is_error_log (e : Effect) : bool :=
  match e with Log Error _ => true | _ => false end.

(** ** Vocabulary of the statements *)

(** The same environment with a dashboard that answers [ok]. *)
Definition with_post_ok (E : Env) : Env :=
  mkEnv (AI_ID E) (now E) true (get_scores E).


(** The scores [set_win] reports. *)
Definition final_scores (E : Env) (s : Match) : Z * Z :=
  match match_process s with Some _ => get_scores E | None => (0, 0) end.

(** The body posted to the dashboard for a winner [w] of seats [u0], [u1]. *)
Definition report (E : Env) (s : Match) (w u0 u1 : MatchUser) : Dashboard :=
  mkDashboard (uid u0) (fst (final_scores E s)) (uid u1)
    (snd (final_scores E s)) (uid w)
    (match start_at (match_ s) with Some t => t | None => now E end)
    (match start_at (match_ s) with Some t => now E - t | None => 0 end).

(** What [set_win] does after the report, by [winner_match]. *)
Definition propagate (s : Match) (w : MatchUser) : list Effect :=
  match winner_match (match_ s) with
  | Some next =>
      [Log Info "winner match id";
       CreateMatchUser (uid w) (match_id next);
       MatchDecided w next]
  | None =>
      [Log Info "deleting winner id";
       DeleteRoomUsersOf (uid w);
       Log Info "Deleting match room name";
       DeleteRoom (room_name_of (match_room (match_ s)))]
  end.

Definition set_win_trace (E : Env) (s : Match) (idx : Z) (w u0 u1 : MatchUser)
  : list Effect :=
  [Log Info "winner match";
   EmitGameOver (paddle_of idx) (fst (final_scores E s))
     (snd (final_scores E s)) (room_name s);
   Post (report E s w u0 u1)]
  ++ (if post_ok E then [] else [Log Error "resp is not ok"])
  ++ propagate s w
  ++ [DeleteMatchId (match_id (match_ s))].

(** The facts a forfeit leaves in the trace: who won, what was reported,
    whose membership row went, and who was dropped from the transport. *)
Definition forfeit_recorded (s : Match) (t : list Effect)
    (idx : Z) (w l : MatchUser) : Prop :=
  winners t = [paddle_of idx] /\
  (exists d, filter is_post t = [Post d] /\ winner_id d = uid w) /\
  filter is_room_user_delete t =
    [DeleteRoomUser (uid l) (room_id (match_room (match_ s)))] /\
  filter is_disconnect t = [SioDisconnect (sid l)].


(** The session a call leaves behind. *)
Definition state_of {A} (r : Outcome A * Match * list Effect) : Match :=
  snd (fst r).

(** A computation that, started with the lock held, keeps it held and makes
    no unguarded access. *)
Definition guarded {A} (m : M A) : Prop :=
  forall s, lock s = true ->
    lock (state_of (m s)) = true /\ unguarded (state_of (m s)) = unguarded s.

(** A computation that, started on a free lock, ends with the lock free and
    has touched none of the guarded fields outside it. *)
Definition quiet {A} (m : M A) : Prop :=
  forall s, lock s = false ->
    lock (state_of (m s)) = false /\ unguarded (state_of (m s)) = unguarded s.

(** An update that leaves the lock and the ghost field alone. *)
Definition field_update (upd : Match -> Match) : Prop :=
  forall s, lock (upd s) = lock s /\ unguarded (upd s) = unguarded s.

(** What holds of a session as long as no AI joins: the two lists grow
    together up to two seats, nothing has happened before the second seat
    is decided, and a running match has both seats online. *)
Definition Inv (s : Match) : Prop :=
  lock s = false /\
  List.length (users s) = List.length (online s) /\
  (List.length (users s) <= 2)%nat /\
  ((List.length (users s) < 2)%nat ->
   stage s = NOT_STARTED /\ match_process s = None) /\
  (stage s = MATCH -> online s = [true; true]).

(** The events considered: no AI join, and a runner that calls back only
    once it exists. *)
Definition enabled (ev : Event) (s : Match) : Prop :=
  match ev with
  | AiJoin _ => False
  | RunnerConcluded _ => match_process s <> None
  | _ => True
  end.


Fixpoint run_enabled (E : Env) (evs : list Event) (s : Match) : Prop :=
  match evs with
  | [] => True
  | ev :: rest =>
      enabled ev s /\ run_enabled E rest (state_of (handle E ev s))
  end.

(** A computation none of whose calls satisfies [p], whatever the session. *)
Definition never_emits {A} (p : Effect -> bool) (m : M A) : Prop :=
  forall s, filter p (snd (m s)) = [].

Definition is_delete_match_id (e : Effect) : bool :=
  match e with DeleteMatchId _ => true | _ => false end.

(** One seat decided and connected; the match is played against the AI. *)
Definition solo0 : Match :=
  final (run env0 [DecideSeat alice; Connect alice] session0).

(** Both seats decided, nobody connected. *)
Definition decided0 : Match :=
  final (run env0 [DecideSeat alice; DecideSeat bob] session0).

(** The answer of the loop on users and flags that line up. *)
Definition connected_among (us : list MatchUser) (flags : list bool)
    (user_id : Z) : bool :=
  existsb (fun p => (uid (fst p) =? user_id) && snd p) (combine us flags).


(** Events that address the session as their senders do: no AI join, a
    disconnect during a match only from a seated user, and a report of the
    runner only once a runner exists and only for seat 0 or seat 1. *)
Definition well_addressed (ev : Event) (s : Match) : Prop :=
  match ev with
  | AiJoin _ => False
  | RunnerConcluded w => match_process s <> None /\ (w = 0 \/ w = 1)
  | Disconnect u => stage s = MATCH -> find_idx (users s) (uid u) 0 <> -1
  | _ => True
  end.

Fixpoint run_addressed (E : Env) (evs : list Event) (s : Match) : Prop :=
  match evs with
  | [] => True
  | ev :: rest =>
      well_addressed ev s /\ run_addressed E rest (state_of (handle E ev s))
  end.
(** * Properties *)

Arguments py_index : simpl never.
Arguments py_setitem : simpl never.

Ltac unfold_methods :=
  unfold handle, alert_winner, user_disconnected, timed_out, ai_connected,
    ai_connected_locked, ai_connected_bind, ai_connected_check,
    user_connected, user_decided, set_win_and_lose, set_win, set_lose,
    online_at, users_at, get_user_idx, set_stage_match, set_stage_waiting,
    process_stop, process_start, process_switch, waiting_stop, waiting_start,
    with_lock, attr, wr, rd, touch, lift_index, log, effect, raise, bind, ret.

Ltac py_step :=
  repeat (cbn in *;
          try match goal with
            | H : py_index ?l ?i = _ |- context [py_index ?l ?i] => rewrite H
            | H : py_setitem ?l ?i ?v = _ |- context [py_setitem ?l ?i ?v] =>
                rewrite H
            | H : ?b = _ |- context [if ?b then _ else _] => rewrite H
            end).

(** Membership in an explicit trace. *)
Ltac in_list := cbn; repeat (first [left; reflexivity | right]).

Ltac open_session s :=
  destruct s as [st m rn ai us on mp wp lk ug]; cbn in *; subst.

(** ** What the resolution helpers do once the lock is held *)

Lemma set_lose_locked s i u :
  lock s = true -> py_index (users s) i = Some u ->
  set_lose i s =
    (Ret tt, set_stage FINISHED s,
     [DeleteRoomUser (uid u) (room_id (match_room (match_ s)))]).
Proof.
  intros Hl Hu. open_session s.
  unfold_methods. py_step. reflexivity.
Qed.

Lemma set_win_locked E s w win los u0 u1 :
  lock s = true ->
  py_index (users s) w = Some win -> py_index (users s) (1 - w) = Some los ->
  py_index (users s) 0 = Some u0 -> py_index (users s) 1 = Some u1 ->
  set_win E w s = (Ret tt, set_stage FINISHED s, set_win_trace E s w win u0 u1).
Proof.
  intros Hl Hw Hlo H0 H1. open_session s.
  unfold set_win_trace, propagate, report, final_scores.
  unfold_methods. py_step.
  destruct (post_ok E), (winner_match m), mp; py_step; reflexivity.
Qed.

Lemma set_win_and_lose_locked E s w win los u0 u1 :
  lock s = true ->
  py_index (users s) w = Some win -> py_index (users s) (1 - w) = Some los ->
  py_index (users s) 0 = Some u0 -> py_index (users s) 1 = Some u1 ->
  set_win_and_lose E w s =
    (Ret tt, set_stage FINISHED s,
     Log Info "set win and lose" :: set_win_trace E s w win u0 u1
       ++ [DeleteRoomUser (uid los) (room_id (match_room (match_ s)));
           SioDisconnect (sid los)]).
Proof.
  intros Hl Hw Hlo H0 H1.
  open_session s.
  unfold set_win_trace, propagate, report, final_scores.
  unfold_methods. py_step.
  destruct (post_ok E), (winner_match m), mp; py_step; reflexivity.
Qed.

(** ** The waiting timer fires *)

Lemma timed_out_idle E s :
  lock s = false ->
  stage s <> WAITING \/
    (py_index (online s) 0 = Some true /\ py_index (online s) 1 = Some true) ->
  exists t, timed_out E s = (Ret tt, s, t) /\ calls t = [].
Proof.
  intros Hl H. open_session s. unfold_methods.
  destruct st; py_step; try (eexists; split; reflexivity).
  destruct H as [H | [H0 H1]]; [congruence|].
  destruct (len us =? 2); py_step; eexists; split; reflexivity.
Qed.

Lemma timed_out_forfeit E s u0 u1 o0 :
  lock s = false -> stage s = WAITING ->
  py_index (users s) 0 = Some u0 -> py_index (users s) 1 = Some u1 ->
  py_index (online s) 0 = Some o0 ->
  (o0 = true -> py_index (online s) 1 = Some false) ->
  exists t,
    timed_out E s = (Ret tt, set_stage FINISHED s, t) /\
    calls t = calls (set_win_trace E s (if o0 then 0 else 1)
                                   (if o0 then u0 else u1) u0 u1)
              ++ [DeleteRoomUser (uid (if o0 then u1 else u0))
                    (room_id (match_room (match_ s)));
                  SioDisconnect (sid (if o0 then u1 else u0))].
Proof.
  intros Hl Hst Hu0 Hu1 Ho0 Ho1. open_session s.
  unfold set_win_trace, propagate, report, final_scores.
  unfold_methods. py_step.
  destruct o0; [specialize (Ho1 eq_refl)|clear Ho1];
    destruct mp; destruct (len us =? 2); py_step;
    destruct (post_ok E); py_step;
    destruct (winner_match m); py_step;
    eexists; split; reflexivity.
Qed.

(** ** Reading a trace *)

Lemma filter_calls (p : Effect -> bool) (t : list Effect) :
  (forall e, is_log e = true -> p e = false) ->
  filter p (calls t) = filter p t.
Proof.
  intros Hp. unfold calls. induction t as [|e t IH]; cbn; [reflexivity|].
  destruct (is_log e) eqn:He; cbn.
  - rewrite (Hp e He). exact IH.
  - destruct (p e); rewrite IH; reflexivity.
Qed.

Lemma winners_calls (t : list Effect) : winners (calls t) = winners t.
Proof.
  unfold calls. induction t as [|e t IH]; cbn; [reflexivity|].
  destruct e; cbn; fold (winners t); rewrite <- IH; reflexivity.
Qed.

Lemma calls_app (t1 t2 : list Effect) : calls (t1 ++ t2) = calls t1 ++ calls t2.
Proof. apply filter_app. Qed.

Lemma calls_set_win_trace E s idx w u0 u1 :
  calls (set_win_trace E s idx w u0 u1) =
    [EmitGameOver (paddle_of idx) (fst (final_scores E s))
       (snd (final_scores E s)) (room_name s);
     Post (report E s w u0 u1)]
    ++ calls (propagate s w) ++ [DeleteMatchId (match_id (match_ s))].
Proof.
  unfold set_win_trace. rewrite !calls_app.
  destruct (post_ok E); reflexivity.
Qed.

Lemma forfeit_recorded_intro E s t idx w l u0 u1 :
  calls t = calls (set_win_trace E s idx w u0 u1)
            ++ [DeleteRoomUser (uid l) (room_id (match_room (match_ s)));
                SioDisconnect (sid l)] ->
  forfeit_recorded s t idx w l.
Proof.
  intros Ht. unfold forfeit_recorded.
  rewrite <- (winners_calls t).
  rewrite <- (filter_calls is_post t), <- (filter_calls is_room_user_delete t),
    <- (filter_calls is_disconnect t) by (intros [] ?; cbn in *; congruence).
  rewrite Ht, calls_set_win_trace. unfold propagate.
  destruct (winner_match (match_ s)); cbn; repeat split; eauto.
Qed.

(** ** Lock discipline *)

Lemma guarded_ret {A} (a : A) : guarded (ret a).
Proof. intros s Hl. cbn. auto. Qed.

Lemma guarded_raise {A} (e : Exn) : guarded (@raise A e).
Proof. intros s Hl. cbn. auto. Qed.

Lemma guarded_effect (e : Effect) : guarded (effect e).
Proof. intros s Hl. cbn. auto. Qed.

Lemma guarded_log lvl msg : guarded (log lvl msg).
Proof. apply guarded_effect. Qed.

Lemma guarded_attr {A} (proj : Match -> A) : guarded (attr proj).
Proof. intros s Hl. cbn. auto. Qed.

Lemma guarded_rd {A} f (proj : Match -> A) : guarded (rd f proj).
Proof. intros s Hl. unfold rd, touch, state_of. cbn. rewrite Hl. auto. Qed.

Lemma guarded_wr f upd : field_update upd -> guarded (wr f upd).
Proof.
  intros Hu s Hl. unfold wr, touch, state_of. cbn. rewrite Hl.
  destruct (Hu s) as [H1 H2]. rewrite H1, H2. auto.
Qed.

Lemma guarded_lift_index {A} (o : option A) : guarded (lift_index o).
Proof. destruct o; [apply guarded_ret | apply guarded_raise]. Qed.

Lemma guarded_bind {A B} (m : M A) (f : A -> M B) :
  guarded m -> (forall a, guarded (f a)) -> guarded (bind m f).
Proof.
  intros Hm Hf s Hl. specialize (Hm s Hl). unfold bind, state_of in *.
  destruct (m s) as [[[a | e | ] s1] t1]; cbn in *; try assumption.
  destruct Hm as [Hl1 Hg1]. specialize (Hf a s1 Hl1).
  destruct (f a s1) as [[o s2] t2]; cbn in *.
  destruct Hf as [Hl2 Hg2]. split; congruence.
Qed.

Lemma quiet_effect (e : Effect) : quiet (effect e).
Proof. intros s Hl. cbn. auto. Qed.

Lemma quiet_ret {A} (a : A) : quiet (ret a).
Proof. intros s Hl. cbn. auto. Qed.

Lemma quiet_bind {A B} (m : M A) (f : A -> M B) :
  quiet m -> (forall a, quiet (f a)) -> quiet (bind m f).
Proof.
  intros Hm Hf s Hl. specialize (Hm s Hl). unfold bind, state_of in *.
  destruct (m s) as [[[a | e | ] s1] t1]; cbn in *; try assumption.
  destruct Hm as [Hl1 Hg1]. specialize (Hf a s1 Hl1).
  destruct (f a s1) as [[o s2] t2]; cbn in *.
  destruct Hf as [Hl2 Hg2]. split; congruence.
Qed.

Lemma quiet_with_lock {A} (body : M A) : guarded body -> quiet (with_lock body).
Proof.
  intros Hb s Hl. unfold with_lock, state_of. rewrite Hl.
  assert (Hs : lock (set_lock true s) = true) by reflexivity.
  specialize (Hb _ Hs). unfold state_of in Hb.
  destruct (body (set_lock true s)) as [[o s1] t]; cbn in *.
  destruct Hb as [_ Hg]. auto.
Qed.

Lemma field_update_stage v : field_update (set_stage v).
Proof. intros s. auto. Qed.
Lemma field_update_users v : field_update (set_users v).
Proof. intros s. auto. Qed.
Lemma field_update_online v : field_update (set_online v).
Proof. intros s. auto. Qed.
Lemma field_update_match_process v : field_update (set_match_process v).
Proof. intros s. auto. Qed.
Lemma field_update_waiting_process v : field_update (set_waiting_process v).
Proof. intros s. auto. Qed.
Lemma field_update_append_user u :
  field_update (fun s => set_users (users s ++ [u]) s).
Proof. intros s. auto. Qed.
Lemma field_update_append_online b :
  field_update (fun s => set_online (online s ++ [b]) s).
Proof. intros s. auto. Qed.

Create HintDb guard.
#[local] Hint Resolve guarded_ret guarded_raise guarded_effect guarded_log
  guarded_attr guarded_rd guarded_wr guarded_lift_index field_update_stage
  field_update_users field_update_online field_update_match_process
  field_update_waiting_process field_update_append_user
  field_update_append_online quiet_effect quiet_ret : guard.

(** Walk down a method body: sequencing, branches, then the primitives. *)
Ltac walk_body :=
  repeat first
    [ apply guarded_bind; [|intros ?]
    | match goal with
      | |- guarded (if ?c then _ else _) => destruct c
      | |- guarded (match ?x with _ => _ end) => destruct x
      end
    | solve [auto with guard] ].

Lemma guarded_set_lose i : guarded (set_lose i).
Proof. unfold set_lose, users_at. walk_body. Qed.

Lemma guarded_set_win E i : guarded (set_win E i).
Proof. unfold set_win, users_at, log. walk_body. Qed.

Lemma guarded_set_win_and_lose E i : guarded (set_win_and_lose E i).
Proof.
  unfold set_win_and_lose, users_at, log.
  walk_body; auto using guarded_set_win, guarded_set_lose.
Qed.

Lemma quiet_user_decided user :
  quiet (user_decided user).
Proof.
  apply quiet_with_lock.
  unfold online_at, set_stage_waiting, waiting_start, log. walk_body.
Qed.

Lemma quiet_user_connected E user : quiet (user_connected E user).
Proof.
  unfold user_connected. apply quiet_bind; [apply quiet_effect|intros _].
  apply quiet_with_lock.
  unfold get_user_idx, online_at, set_stage_waiting, set_stage_match,
    waiting_start, waiting_stop, process_start, process_switch, log.
  walk_body; auto using guarded_set_win.
Qed.

Lemma quiet_timed_out E : quiet (timed_out E).
Proof.
  unfold timed_out. apply quiet_bind; [apply quiet_effect|intros _].
  apply quiet_with_lock. unfold online_at, log.
  walk_body; auto using guarded_set_win_and_lose.
Qed.

Lemma quiet_user_disconnected E user : quiet (user_disconnected E user).
Proof.
  apply quiet_with_lock.
  unfold get_user_idx, online_at, waiting_stop, process_stop, process_switch,
    log.
  walk_body; auto using guarded_set_win, guarded_set_lose.
Qed.

Lemma quiet_alert_winner E w : quiet (alert_winner E w).
Proof.
  apply quiet_with_lock. unfold log.
  walk_body; auto using guarded_set_win_and_lose.
Qed.

(** Every handler but [ai_connected] reads and writes the guarded fields
    only while it holds the lock. *)
Lemma handlers_hold_lock E ev :
  (forall s_id, ev <> AiJoin s_id) -> quiet (handle E ev).
Proof.
  intros Hev. destruct ev; cbn [handle];
    try (apply quiet_bind; [|intros ?; apply quiet_ret]).
  - apply quiet_user_decided.
  - apply quiet_user_connected.
  - exfalso. eapply Hev. reflexivity.
  - apply quiet_user_disconnected.
  - apply quiet_timed_out.
  - apply quiet_alert_winner.
Qed.

(** ** Capacity and unknown identities *)

Lemma user_decided_full user s :
  lock s = false -> 2 <= len (users s) ->
  exists t, user_decided user s = (Ret false, s, t) /\ calls t = [].
Proof.
  intros Hl Hfull. open_session s. unfold_methods. py_step.
  apply Z.leb_le in Hfull. rewrite Hfull.
  eexists; split; reflexivity.
Qed.

Lemma connect_unknown E user s :
  lock s = false -> find_idx (users s) (uid user) 0 = -1 ->
  exists t, user_connected E user s = (Ret false, s, t) /\ calls t = [].
Proof.
  intros Hl Hidx. open_session s. unfold_methods. py_step.
  rewrite Hidx. eexists; split; reflexivity.
Qed.

Lemma disconnect_unknown_outside_match E user s :
  lock s = false -> stage s <> MATCH ->
  find_idx (users s) (uid user) 0 = -1 ->
  exists t, user_disconnected E user s = (Ret tt, s, t) /\ calls t = [].
Proof.
  intros Hl Hst Hidx. open_session s. unfold_methods.
  destruct st; try congruence; py_step; rewrite ?Hidx;
    eexists; split; reflexivity.
Qed.

(** ** Sessions without an AI join *)

(** Follow one path of a method after the other. *)
Ltac chain :=
  repeat (py_step;
          try match goal with
            | |- context [match py_index ?l ?i with _ => _ end] =>
                destruct (py_index l i) eqn:?
            | |- context [match py_setitem ?l ?i ?v with _ => _ end] =>
                destruct (py_setitem l i v) eqn:?
            | |- context [if post_ok ?E then _ else _] =>
                destruct (post_ok E) eqn:?
            | |- context [match winner_match ?m with _ => _ end] =>
                destruct (winner_match m) eqn:?
            | |- context [match ?x with _ => _ end] => is_var x; destruct x
            | |- context [if ?x then _ else _] => is_var x; destruct x
            end).

Lemma set_lose_state i s :
  lock s = true ->
  state_of (set_lose i s) = s \/ state_of (set_lose i s) = set_stage FINISHED s.
Proof.
  intros Hl. open_session s. unfold_methods. chain; auto.
Qed.

Lemma set_win_state E i s :
  lock s = true ->
  state_of (set_win E i s) = s \/ state_of (set_win E i s) = set_stage FINISHED s.
Proof.
  intros Hl. open_session s. unfold_methods. chain; auto.
Qed.

Lemma set_win_and_lose_state E i s :
  lock s = true ->
  state_of (set_win_and_lose E i s) = s \/
  state_of (set_win_and_lose E i s) = set_stage FINISHED s.
Proof.
  intros Hl. open_session s. unfold_methods. chain; auto.
Qed.

Arguments set_win : simpl never.
Arguments set_lose : simpl never.
Arguments set_win_and_lose : simpl never.

Ltac unfold_handlers :=
  unfold handle, alert_winner, user_disconnected, timed_out,
    user_connected, user_decided,
    online_at, users_at, get_user_idx, set_stage_match, set_stage_waiting,
    process_stop, process_start, process_switch, waiting_stop, waiting_start,
    with_lock, attr, wr, rd, touch, lift_index, log, effect, raise, bind, ret.

(** Replace a call to a resolution helper by the session it leaves. *)
Ltac resolved :=
  match goal with
  | |- context [set_win_and_lose ?E ?w ?s] =>
      let H := fresh in
      destruct (set_win_and_lose_state E w s eq_refl) as [H | H];
      destruct (set_win_and_lose E w s) as [[[[]| |] ?] ?];
      unfold state_of in H; cbn in H; subst; cbn
  | |- context [set_win ?E ?w ?s] =>
      let H := fresh in
      destruct (set_win_state E w s eq_refl) as [H | H];
      destruct (set_win E w s) as [[[[]| |] ?] ?];
      unfold state_of in H; cbn in H; subst; cbn
  | |- context [set_lose ?w ?s] =>
      let H := fresh in
      destruct (set_lose_state w s eq_refl) as [H | H];
      destruct (set_lose w s) as [[[[]| |] ?] ?];
      unfold state_of in H; cbn in H; subst; cbn
  end.

Ltac inv_done :=
  unfold Inv, state_of; cbn; repeat split; intros; subst;
  try lia; try discriminate; try congruence; auto.

Ltac shape_session us on Hfew :=
  destruct us as [|? [|? [|? ?]]]; destruct on as [|? [|? [|? ?]]];
  try discriminate; try (exfalso; cbn in *; lia);
  try (destruct Hfew as [? ?]; [cbn; lia|subst]).

Ltac forward_by :=
  unfold_handlers; unfold py_index, py_setitem; cbn;
  repeat first
    [ resolved
    | match goal with
      | |- context [negb ?b] => is_var b; destruct b; cbn
      | |- context [if ?c then _ else _] => destruct c eqn:?; cbn
      | |- context [match ?x with _ => _ end] => is_var x; destruct x; cbn
      end ];
  inv_done.

Lemma decide_forward user s :
  Inv s ->
  Inv (state_of (user_decided user s)) /\
  stage_value (stage s) <= stage_value (stage (state_of (user_decided user s))).
Proof.
  intros (Hl & Hlen & Hle & Hfew & Hm). open_session s.
  shape_session us on Hfew; forward_by.
Qed.

Lemma connect_forward E user s :
  Inv s ->
  Inv (state_of (user_connected E user s)) /\
  stage_value (stage s) <= stage_value (stage (state_of (user_connected E user s))).
Proof.
  intros (Hl & Hlen & Hle & Hfew & Hm). open_session s.
  shape_session us on Hfew;
    try (destruct st; try (specialize (Hm eq_refl); injection Hm as -> ->));
    unfold_handlers; unfold py_index, py_setitem; cbn;
    repeat match goal with
      | |- context [uid ?a =? uid ?b] => destruct (uid a =? uid b); cbn
      end;
    forward_by.
Qed.

Lemma disconnect_forward E user s :
  Inv s ->
  Inv (state_of (user_disconnected E user s)) /\
  stage_value (stage s)
    <= stage_value (stage (state_of (user_disconnected E user s))).
Proof.
  intros (Hl & Hlen & Hle & Hfew & Hm). open_session s.
  shape_session us on Hfew;
    try (destruct st; try (specialize (Hm eq_refl); injection Hm as -> ->));
    unfold_handlers; unfold py_index, py_setitem; cbn;
    repeat match goal with
      | |- context [uid ?a =? uid ?b] => destruct (uid a =? uid b); cbn
      end;
    forward_by.
Qed.

Lemma timed_out_forward E s :
  Inv s ->
  Inv (state_of (timed_out E s)) /\
  stage_value (stage s) <= stage_value (stage (state_of (timed_out E s))).
Proof.
  intros (Hl & Hlen & Hle & Hfew & Hm). open_session s.
  shape_session us on Hfew;
    try (destruct st; try (specialize (Hm eq_refl); injection Hm as -> ->));
    forward_by.
Qed.

Lemma alert_winner_forward E w s :
  Inv s -> match_process s <> None ->
  Inv (state_of (alert_winner E w s)) /\
  stage_value (stage s) <= stage_value (stage (state_of (alert_winner E w s))).
Proof.
  intros (Hl & Hlen & Hle & Hfew & Hm) Hmp. open_session s.
  shape_session us on Hfew; try congruence;
    try (destruct st; try (specialize (Hm eq_refl); injection Hm as -> ->));
    forward_by.
Qed.

Lemma state_of_bind_ret {A B} (m : M A) (f : A -> B) s :
  state_of ((a <- m ;; ret (f a)) s) = state_of (m s).
Proof.
  unfold bind, ret, state_of.
  destruct (m s) as [[[a | e | ] s1] t1]; reflexivity.
Qed.

Lemma step_forward E ev s :
  Inv s -> enabled ev s ->
  Inv (state_of (handle E ev s)) /\
  stage_value (stage s) <= stage_value (stage (state_of (handle E ev s))).
Proof.
  intros HI Hen. destruct ev; cbn [handle enabled] in *;
    try rewrite (state_of_bind_ret _ (fun _ => VNone));
    try rewrite (state_of_bind_ret _ VBool).
  - apply decide_forward; assumption.
  - apply connect_forward; assumption.
  - contradiction.
  - apply disconnect_forward; assumption.
  - apply timed_out_forward; assumption.
  - apply alert_winner_forward; assumption.
Qed.

Lemma final_run_cons E ev rest s :
  final (run E (ev :: rest) s) = final (run E rest (state_of (handle E ev s))).
Proof.
  unfold final, state_of. cbn [run].
  destruct (handle E ev s) as [[o s1] t1]. cbn [fst snd].
  destruct (run E rest s1) as [[s2 t2] os]. reflexivity.
Qed.

Lemma final_run_app E pre post s :
  final (run E (pre ++ post) s) = final (run E post (final (run E pre s))).
Proof.
  revert s. induction pre as [|ev pre IH]; intros s; [reflexivity|].
  rewrite <- app_comm_cons, !final_run_cons. apply IH.
Qed.

Lemma run_enabled_app E pre post s :
  run_enabled E (pre ++ post) s ->
  run_enabled E pre s /\ run_enabled E post (final (run E pre s)).
Proof.
  revert s. induction pre as [|ev pre IH]; intros s H;
    cbn [app run_enabled] in *; [auto|].
  destruct H as [Hen H]. destruct (IH _ H) as [H1 H2].
  rewrite final_run_cons. auto.
Qed.

Lemma Inv_init name m with_ai : Inv (Match_init name m with_ai).
Proof. unfold Inv; cbn. repeat split; auto; discriminate. Qed.

(** Without an AI join the invariant is kept and the stage never goes back. *)
Lemma run_forward E evs s :
  Inv s -> run_enabled E evs s ->
  Inv (final (run E evs s)) /\
  stage_value (stage s) <= stage_value (stage (final (run E evs s))).
Proof.
  revert s. induction evs as [|ev rest IH]; intros s HI Hen.
  - cbn. split; [assumption|lia].
  - destruct Hen as [Hev Hrest].
    destruct (step_forward E ev s HI Hev) as [HI1 Hle1].
    destruct (IH _ HI1 Hrest) as [HI2 Hle2].
    rewrite final_run_cons. split; [assumption|lia].
Qed.

Lemma stage_monotone_without_ai_join E name m with_ai pre post :
  run_enabled E (pre ++ post) (Match_init name m with_ai) ->
  stage_value (stage (final (run E pre (Match_init name m with_ai))))
    <= stage_value
         (stage (final (run E (pre ++ post) (Match_init name m with_ai)))).
Proof.
  intros H. apply run_enabled_app in H. destruct H as [Hpre Hpost].
  rewrite final_run_app.
  apply run_forward; [|assumption].
  apply run_forward; [apply Inv_init|assumption].
Qed.

Lemma seats_bounded_without_ai_join E name m with_ai evs :
  run_enabled E evs (Match_init name m with_ai) ->
  (List.length (users (final (run E evs (Match_init name m with_ai)))) <= 2)%nat.
Proof.
  intros H.
  destruct (run_forward E evs _ (Inv_init name m with_ai) H)
    as [(_ & _ & Hle & _) _].
  exact Hle.
Qed.

(** * The claims *)

(** C4.  When the waiting timer fires on an unlocked session: if the stage
    is not [WAITING], or both seats are online, the call returns with the
    session unchanged and no call to any collaborator; if the stage is
    [WAITING] and only seat 0 is online, the session becomes [FINISHED],
    seat 0 is resolved as winner and seat 1 as loser, and the one transport
    session that is disconnected is seat 1's. *)
Theorem timer_fire_spec (E : Env) (s : Match) :
  lock s = false ->
  (stage s <> WAITING \/
     (py_index (online s) 0 = Some true /\ py_index (online s) 1 = Some true) ->
   exists t, timed_out E s = (Ret tt, s, t) /\ calls t = []) /\
  (forall u0 u1,
     stage s = WAITING ->
     py_index (users s) 0 = Some u0 -> py_index (users s) 1 = Some u1 ->
     py_index (online s) 0 = Some true -> py_index (online s) 1 = Some false ->
     exists t,
       timed_out E s = (Ret tt, set_stage FINISHED s, t) /\
       forfeit_recorded s t 0 u0 u1).
Proof.
  intros Hl. split.
  - apply timed_out_idle; assumption.
  - intros u0 u1 Hst Hu0 Hu1 Ho0 Ho1.
    destruct (timed_out_forfeit E s u0 u1 true Hl Hst Hu0 Hu1 Ho0 (fun _ => Ho1))
      as [t [Hrun Hcalls]].
    exists t. split; [exact Hrun|].
    eapply forfeit_recorded_intro; exact Hcalls.
Qed.

Lemma timer_fire_spec_witness :
  exists t,
    timed_out env0 waiting0 = (Ret tt, set_stage FINISHED waiting0, t) /\
    forfeit_recorded waiting0 t 0 alice bob.
Proof.
  exact (proj2 (timer_fire_spec env0 waiting0 eq_refl) alice bob
           eq_refl eq_refl eq_refl eq_refl eq_refl).
Defined.

(** C10.  When the waiting timer fires while the stage is [WAITING] and not
    both seats are online, the winner is seat 0 if seat 0 is online and
    seat 1 otherwise; when neither seat is online, seat 1 is the winner and
    seat 0 the loser, and seat 0's transport session is disconnected. *)
Theorem timer_fire_winner_choice (E : Env) (s : Match) (u0 u1 : MatchUser)
    (o0 o1 : bool) :
  lock s = false ->
  stage s = WAITING ->
  py_index (users s) 0 = Some u0 -> py_index (users s) 1 = Some u1 ->
  py_index (online s) 0 = Some o0 -> py_index (online s) 1 = Some o1 ->
  o0 && o1 = false ->
  exists t,
    timed_out E s = (Ret tt, set_stage FINISHED s, t) /\
    forfeit_recorded s t (if o0 then 0 else 1)
      (if o0 then u0 else u1) (if o0 then u1 else u0) /\
    (o0 = false -> o1 = false ->
     winners t = [paddle2] /\
     filter is_room_user_delete t =
       [DeleteRoomUser (uid u0) (room_id (match_room (match_ s)))] /\
     filter is_disconnect t = [SioDisconnect (sid u0)]).
Proof.
  intros Hl Hst Hu0 Hu1 Ho0 Ho1 Hnot.
  assert (Hsecond : o0 = true -> py_index (online s) 1 = Some false).
  { intros ->. cbn in Hnot. rewrite Ho1, Hnot. reflexivity. }
  destruct (timed_out_forfeit E s u0 u1 o0 Hl Hst Hu0 Hu1 Ho0 Hsecond)
    as [t [Hrun Hcalls]].
  exists t.
  assert (Hrec : forfeit_recorded s t (if o0 then 0 else 1)
                   (if o0 then u0 else u1) (if o0 then u1 else u0))
    by (eapply forfeit_recorded_intro; exact Hcalls).
  split; [exact Hrun|]. split; [exact Hrec|].
  intros -> _. destruct Hrec as (Hw & _ & Hd & Hx). repeat split; assumption.
Qed.

Lemma timer_fire_winner_choice_witness :
  exists t,
    timed_out env0 stalled0 = (Ret tt, set_stage FINISHED stalled0, t) /\
    forfeit_recorded stalled0 t 1 bob alice /\
    (false = false -> false = false ->
     winners t = [paddle2] /\
     filter is_room_user_delete t = [DeleteRoomUser 10 5] /\
     filter is_disconnect t = [SioDisconnect "sidA"]).
Proof.
  exact (timer_fire_winner_choice env0 stalled0 alice bob false false
           eq_refl eq_refl eq_refl eq_refl eq_refl eq_refl eq_refl).
Defined.

(** C8.  If the response of the statistics report is not [ok], [set_win]
    logs the failure and still completes: the match-concluded notification
    is emitted, the winner is registered into the next match or the room is
    deleted, the stage is [FINISHED], and both the resulting session and the
    calls made are those of a run whose report succeeded. *)
Theorem report_failure_not_fatal (E : Env) (s : Match) (w : Z)
    (win los u0 u1 : MatchUser) :
  lock s = true ->
  py_index (users s) w = Some win -> py_index (users s) (1 - w) = Some los ->
  py_index (users s) 0 = Some u0 -> py_index (users s) 1 = Some u1 ->
  post_ok E = false ->
  exists t,
    set_win E w s = (Ret tt, set_stage FINISHED s, t) /\
    In (Log Error "resp is not ok") t /\
    In (EmitGameOver (paddle_of w) (fst (final_scores E s))
          (snd (final_scores E s)) (room_name s)) t /\
    match winner_match (match_ s) with
    | Some next =>
        In (CreateMatchUser (uid win) (match_id next)) t /\
        In (MatchDecided win next) t
    | None => In (DeleteRoom (room_name_of (match_room (match_ s)))) t
    end /\
    exists t',
      set_win (with_post_ok E) w s = (Ret tt, set_stage FINISHED s, t') /\
      calls t = calls t'.
Proof.
  intros Hl Hw Hlo H0 H1 Hpost.
  exists (set_win_trace E s w win u0 u1).
  split; [apply set_win_locked with (los := los); assumption|].
  split; [unfold set_win_trace; rewrite Hpost; in_list|].
  split; [unfold set_win_trace; in_list|]. split.
  - unfold set_win_trace, propagate. rewrite Hpost.
    destruct (winner_match (match_ s)); [split|]; in_list.
  - exists (set_win_trace (with_post_ok E) s w win u0 u1).
    split; [apply set_win_locked with (los := los); assumption|].
    rewrite !calls_set_win_trace. reflexivity.
Qed.

Lemma report_failure_not_fatal_witness :
  exists t,
    set_win (mkEnv 0 100 false (11, 7)) 0 playing0_locked =
      (Ret tt, set_stage FINISHED playing0_locked, t) /\
    In (Log Error "resp is not ok") t /\
    In (EmitGameOver paddle1 11 7 "match_1") t /\
    In (DeleteRoom "room_5") t /\
    exists t',
      set_win env0 0 playing0_locked =
        (Ret tt, set_stage FINISHED playing0_locked, t') /\
      calls t = calls t'.
Proof.
  exact (report_failure_not_fatal (mkEnv 0 100 false (11, 7)) playing0_locked
           0 alice bob alice bob eq_refl eq_refl eq_refl eq_refl eq_refl
           eq_refl).
Defined.

(** C6.  On a session of two decided seats whose stage is [FINISHED], a
    connect for an identity found at seat [idx] behaves as follows.  If the
    seat is not yet online, the call runs [set_win] for that seat once and
    returns [True]; the scores emitted and reported are 0 and 0 when no
    runner was ever created; and any later connect for the same identity
    returns [True] without changing the session or calling a collaborator.
    If the seat is already online, the connect is such a no-op itself. *)
Theorem late_connect_wins (E : Env) (s : Match) (user : MatchUser) (idx : Z) :
  lock s = false ->
  stage s = FINISHED ->
  List.length (users s) = 2%nat -> List.length (online s) = 2%nat ->
  find_idx (users s) (uid user) 0 = idx -> idx <> -1 ->
  (py_index (online s) idx = Some true ->
   exists t, user_connected E user s = (Ret true, s, t) /\ calls t = []) /\
  (py_index (online s) idx = Some false ->
   exists s1 t,
     user_connected E user s = (Ret true, s1, t) /\
     stage s1 = FINISHED /\
     py_index (users s1) idx = Some user /\
     py_index (online s1) idx = Some true /\
     winners t = [paddle_of idx] /\
     (exists d, filter is_post t = [Post d] /\ winner_id d = uid user /\
        (match_process s = None ->
         player1_score d = 0 /\ player2_score d = 0)) /\
     (match_process s = None ->
      filter is_game_over t = [EmitGameOver (paddle_of idx) 0 0 (room_name s)]) /\
     (forall E' user', uid user' = uid user ->
        exists t', user_connected E' user' s1 = (Ret true, s1, t') /\
                   calls t' = [])).
Proof.
  intros Hl Hst Hus Hon Hidx Hfound. open_session s.
  destruct us as [|a [|b [|? ?]]]; try discriminate.
  destruct on as [|oa [|ob [|? ?]]]; try discriminate.
  cbn in Hfound |- *.
  destruct (uid a =? uid user) eqn:Ha;
    [|destruct (uid b =? uid user) eqn:Hb; [|congruence]].
  all: split; intros Ho; unfold py_index in Ho; cbn in Ho; injection Ho as ->.
  1, 3: unfold_methods; unfold py_index, py_setitem; py_step;
    eexists; split; reflexivity.
  all: unfold_methods; unfold py_index, py_setitem; py_step;
    destruct (post_ok E); py_step; destruct (winner_match m); py_step;
    (do 2 eexists; split; [reflexivity|]);
    (repeat split; try reflexivity).
  all: try (eexists; repeat split; try reflexivity; intros; subst; reflexivity).
  all: try (intros; subst; reflexivity).
  all: intros E' user' Heq; py_step; rewrite Heq, ?Ha, Z.eqb_refl; py_step;
    eexists; split; reflexivity.
Qed.

Lemma late_connect_wins_witness :
  exists s1 t,
    user_connected env0 bob abandoned0 = (Ret true, s1, t) /\
    winners t = [paddle2] /\
    filter is_game_over t = [EmitGameOver paddle2 0 0 "match_1"].
Proof.
  destruct (proj2 (late_connect_wins env0 abandoned0 bob 1 eq_refl eq_refl
                     eq_refl eq_refl eq_refl ltac:(discriminate)) eq_refl)
    as (s1 & t & Hrun & _ & _ & _ & Hw & _ & Hg & _).
  exists s1, t. repeat split; [exact Hrun | exact Hw | exact (Hg eq_refl)].
Defined.

(** C1.  The claim: over any sequence of events [set_win] runs for at most
    one seat, and once the stage is [FINISHED] no resolution side effect
    fires again.  The code at [late_loser]: the timer resolves seat 0 as
    winner and seat 1 as loser; the later connect of seat 1 finds the stage
    [FINISHED] and runs [set_win] for seat 1 as well, so the match-concluded
    event, the report and the room deletion (or the registration into the
    next match) all happen twice, for two different winners. *)
Theorem late_loser_resolved_twice :
  stage (final (run env0 [DecideSeat alice; DecideSeat bob; Connect alice;
                          TimerFire] session0)) = FINISHED /\
  outcomes (run env0 late_loser session0) =
    [Ret (VBool true); Ret (VBool true); Ret (VBool true); Ret VNone;
     Ret (VBool true)] /\
  winners (trace (run env0 late_loser session0)) = [paddle1; paddle2] /\
  map (fun e => match e with Post d => winner_id d | _ => 0 end)
      (filter is_post (trace (run env0 late_loser session0))) = [10; 20] /\
  filter is_room_delete (trace (run env0 late_loser session0)) =
    [DeleteRoom "room_5"; DeleteRoom "room_5"] /\
  filter is_advance (trace (run env0 late_loser semi0)) =
    [CreateMatchUser 10 2; CreateMatchUser 20 2].
Proof. repeat split; vm_compute; reflexivity. Qed.

(** C2.  The claim: no handler moves the stage backward and [FINISHED] is
    terminal.  The code: [ai_connected] sets the stage to [MATCH] without
    looking at it, so an AI join after [full_match] takes the session from
    [FINISHED] back to [MATCH] and starts a runner again. *)
Theorem ai_join_reopens_finished :
  stage (final (run env0 full_match session0)) = FINISHED /\
  stage (final (run env0 (full_match ++ [AiJoin "sidAI"]) session0)) = MATCH /\
  match_process (final (run env0 (full_match ++ [AiJoin "sidAI"]) session0)) =
    Some (mkProcess false true).
Proof. repeat split; vm_compute; reflexivity. Qed.

(** C3.  The claim: a disconnect for an identity that holds no seat is a
    logged no-op in every stage.  The code in stage [MATCH]: the index -1
    is not checked; the runner is stopped, the stage becomes [FINISHED], the
    membership row of the last seat is deleted, and [IndexError] escapes
    from [set_win] at index 2. *)
Theorem unknown_disconnect_in_match :
  find_idx (users playing0) (uid carol) 0 = -1 /\
  stage playing0 = MATCH /\
  exists s',
    handle env0 (Disconnect carol) playing0 =
      (Raise IndexError, s',
       [Log Info "user is disconnected"; RunnerStop; DeleteRoomUser 20 5]) /\
    stage s' = FINISHED /\
    match_process s' = Some (mkProcess false false).
Proof.
  split; [reflexivity|]. split; [reflexivity|].
  eexists. split; [vm_compute; reflexivity|]. split; reflexivity.
Qed.

(** C5.  The claim: with no next match, [set_win] also disconnects the
    winner's transport session.  The code at [full_match] (no next match,
    scores 11 to 7): the report, the match-concluded event and the room
    deletion are as claimed, but the only session disconnected is the
    loser's; no call disconnects the winner's. *)
Theorem final_winner_stays_connected :
  winner_match (match_ session0) = None /\
  calls (trace (run env0 full_match session0)) =
    [EmitInit paddle1 "sidA"; EnterRoom "sidA" "match_1"; TimerStart;
     EmitInit paddle2 "sidB"; EnterRoom "sidB" "match_1"; TimerStop;
     RunnerStart;
     EmitGameOver paddle1 11 7 "match_1";
     Post (mkDashboard 10 11 20 7 10 100 0);
     DeleteRoomUsersOf 10; DeleteRoom "room_5"; DeleteMatchId 1;
     DeleteRoomUser 20 5; SioDisconnect "sidB"] /\
  filter is_disconnect (trace (run env0 full_match session0)) =
    [SioDisconnect (sid bob)].
Proof. repeat split; vm_compute; reflexivity. Qed.

(** C7.  The claim: no more than two seats are ever occupied, also across
    AI joins.  The code: [ai_connected] logs an error when the number of
    users is not 1 and appends all the same, so after two decided seats an
    AI join leaves three users. *)
Theorem ai_join_adds_third_seat :
  let r := run env0 [DecideSeat alice; DecideSeat bob; AiJoin "sidAI"] session0 in
  outcomes r = [Ret (VBool true); Ret (VBool true); Ret VNone] /\
  users (final r) = [alice; bob; mkUser 0 "sidAI" true] /\
  online (final r) = [false; false; true] /\
  filter is_error_log (trace r) =
    [Log Error "When AI is connected, self.users len is not 1!"].
Proof. repeat split; vm_compute; reflexivity. Qed.

(** C9.  The claim: all six handlers read and write the session only under
    the lock.  The code: [ai_connected] reads [users] twice and appends to
    [users] and [online] before it takes the lock.  Under the schedule
    [raced] its length check passes, a concurrent [user_decided] fills the
    second seat, and the append then makes a third, with no error logged. *)
Theorem ai_join_outside_lock :
  unguarded (state_of (ai_connected env0 "sidAI" one_seat0)) =
    [Rd FUsers; Rd FUsers; Wr FUsers; Wr FOnline] /\
  users (state_of (raced one_seat0)) = [alice; bob; mkUser 0 "sidAI" true] /\
  filter is_error_log (snd (raced one_seat0)) = [].
Proof. repeat split; vm_compute; reflexivity. Qed.

(** * Further properties of the coordinator *)

(** ** Looking a user up *)

Lemma find_idx_from (us : list MatchUser) (id k : Z) :
  (find_idx us id k = -1 /\ forall u, In u us -> uid u <> id) \/
  (k <= find_idx us id k < k + len us /\
   exists u, nth_z us (find_idx us id k - k) = Some u /\ uid u = id /\
     forall j v, 0 <= j < find_idx us id k - k ->
       nth_z us j = Some v -> uid v <> id) \/
  k < 0.
Proof.
  revert k. induction us as [|a us IH]; intros k; cbn [find_idx].
  - left. split; [reflexivity|]. intros u [].
  - destruct (Z.lt_ge_cases k 0) as [Hneg | Hk]; [right; right; exact Hneg|].
    destruct (uid a =? id) eqn:Ha.
    + right; left. apply Z.eqb_eq in Ha. unfold len. cbn [List.length].
      split; [lia|]. exists a. rewrite Z.sub_diag. cbn.
      repeat split; auto. intros j v Hj. lia.
    + apply Z.eqb_neq in Ha.
      destruct (IH (k + 1)) as [[Hnone Hall] | [[Hr (u & Hu & Hid & Hfirst)] | Hneg]];
        [left | right; left | lia].
      * split; [exact Hnone|]. intros u [<- | Hin]; auto.
      * unfold len in *. cbn [List.length]. split; [lia|].
        exists u. cbn [nth_z].
        replace (find_idx us id (k + 1) - k =? 0) with false
          by (symmetry; apply Z.eqb_neq; lia).
        replace (find_idx us id (k + 1) - k - 1)
          with (find_idx us id (k + 1) - (k + 1)) by lia.
        repeat split; auto.
        intros j v Hj Hv. destruct (j =? 0) eqn:Hj0.
        -- injection Hv as <-. exact Ha.
        -- apply Z.eqb_neq in Hj0. apply (Hfirst (j - 1) v); [lia|exact Hv].
Qed.

(** X1.  [__get_user_idx] returns -1 exactly when no user of the session
    has the identity asked for, and otherwise the position of the first
    user that has it; it leaves the session as it is. *)
Theorem get_user_idx_first_match (user : MatchUser) (s : Match) :
  exists i,
    get_user_idx user s = (Ret i, touch (Rd FUsers) s, []) /\
    ((i = -1 /\ forall u, In u (users s) -> uid u <> uid user) \/
     (0 <= i < len (users s) /\
      exists u, nth_z (users s) i = Some u /\ uid u = uid user /\
        forall j v, 0 <= j < i -> nth_z (users s) j = Some v ->
          uid v <> uid user)).
Proof.
  exists (find_idx (users s) (uid user) 0). split; [reflexivity|].
  destruct (find_idx_from (users s) (uid user) 0)
    as [H | [[Hr (u & Hu & Hid & Hfirst)] | Hneg]]; [left; exact H| |lia].
  right. rewrite Z.sub_0_r in *. split; [lia|]. exists u. auto.
Qed.

(** ** Deciding a seat *)

(** X2.  On a session with fewer than two users [user_decided] always
    succeeds: the user is appended with presence [False] and [True] is
    returned.  The stage changes only when this is the second seat and
    seat 0 is already online: then it becomes [WAITING] and the timer is
    started; otherwise no collaborator is called. *)
Theorem decide_seat_accepts (user : MatchUser) (s : Match) :
  lock s = false ->
  len (users s) < 2 ->
  let seated :=
    set_online (online s ++ [false]) (set_users (users s ++ [user]) s) in
  exists t,
    (if (len (users s) =? 1) && hd false (online s)
     then user_decided user s =
            (Ret true,
             set_waiting_process (mkWaiting true) (set_stage WAITING seated), t)
          /\ calls t = [TimerStart]
     else user_decided user s = (Ret true, seated, t) /\ calls t = []).
Proof.
  intros Hl Hfew. open_session s. unfold len in Hfew.
  destruct us as [|a [|b us]]; cbn [List.length] in Hfew; [| |lia];
    destruct on as [|o on]; unfold_methods; unfold py_index; cbn;
    try destruct o; cbn; eexists; split; reflexivity.
Qed.

Lemma decide_seat_accepts_witness :
  exists t,
    user_decided bob solo0 =
      (Ret true,
       set_waiting_process (mkWaiting true)
         (set_stage WAITING
            (set_online [true; false] (set_users [alice; bob] solo0))), t) /\
    calls t = [TimerStart].
Proof. exact (decide_seat_accepts bob solo0 eq_refl eq_refl). Defined.

(** X3.  On a session that already has two users (or more) [user_decided]
    returns [False] for any user, leaves the session exactly as it was and
    calls no collaborator. *)
Theorem decide_seat_rejects_when_full (user : MatchUser) (s : Match) :
  lock s = false ->
  2 <= len (users s) ->
  user_decided user s =
    (Ret false, s,
     [Log Info "user is decided to be in room";
      Log Info "user could not be in room, because there already exists users"]).
Proof.
  intros Hl Hfull. open_session s. unfold_methods. py_step.
  apply Z.leb_le in Hfull. rewrite Hfull. reflexivity.
Qed.

Lemma decide_seat_rejects_when_full_witness :
  user_decided carol waiting0 =
    (Ret false, waiting0,
     [Log Info "user is decided to be in room";
      Log Info "user could not be in room, because there already exists users"]).
Proof.
  exact (decide_seat_rejects_when_full carol waiting0 eq_refl
           ltac:(discriminate)).
Defined.

(** ** Connecting *)

Lemma find_idx_absent (us : list MatchUser) (id k : Z) :
  (forall u, In u us -> uid u <> id) -> find_idx us id k = -1.
Proof.
  revert k. induction us as [|a us IH]; intros k Hall; cbn; [reflexivity|].
  destruct (uid a =? id) eqn:Ha.
  - apply Z.eqb_eq in Ha. exfalso. apply (Hall a); [left; reflexivity|exact Ha].
  - apply IH. intros u Hu. apply Hall. right. exact Hu.
Qed.

(** X4.  A connect for an identity that no user of the session has returns
    [False], in every stage, without changing the session and without
    calling a collaborator. *)
Theorem connect_rejects_unknown (E : Env) (user : MatchUser) (s : Match) :
  lock s = false ->
  (forall u, In u (users s) -> uid u <> uid user) ->
  user_connected E user s =
    (Ret false, s,
     [Log Info "user is connected to room";
      Log Error "user is connected, but the user is not found"]).
Proof.
  intros Hl Hall. apply (find_idx_absent _ _ 0) in Hall.
  open_session s. unfold_methods. py_step. rewrite Hall. reflexivity.
Qed.

Lemma connect_rejects_unknown_witness :
  user_connected env0 carol playing0 =
    (Ret false, playing0,
     [Log Info "user is connected to room";
      Log Error "user is connected, but the user is not found"]).
Proof.
  apply connect_rejects_unknown; [reflexivity|].
  intros u [<- | [<- | []]]; discriminate.
Defined.

(** X5.  A connect for a seat that is already flagged online returns
    [True], in every stage, without changing the session and without
    calling a collaborator. *)
Theorem connect_when_online_is_noop (E : Env) (user : MatchUser) (s : Match) :
  lock s = false ->
  find_idx (users s) (uid user) 0 <> -1 ->
  py_index (online s) (find_idx (users s) (uid user) 0) = Some true ->
  user_connected E user s =
    (Ret true, s,
     [Log Info "user is connected to room";
      Log Error "user is connected, but the user is already connected"]).
Proof.
  intros Hl Hidx Hon. apply Z.eqb_neq in Hidx.
  open_session s. unfold_methods. py_step. reflexivity.
Qed.

Lemma connect_when_online_is_noop_witness :
  user_connected env0 alice abandoned0 =
    (Ret true, abandoned0,
     [Log Info "user is connected to room";
      Log Error "user is connected, but the user is already connected"]).
Proof.
  exact (connect_when_online_is_noop env0 alice abandoned0 eq_refl
           ltac:(discriminate) eq_refl).
Defined.

(** X6.  On a session of two seats that is not [FINISHED], the connect of
    the seat that was missing while the other seat is online stores the
    connecting user in its seat, stops the timer, sets the stage to [MATCH]
    and creates and starts the runner; the connecting user is sent its
    paddle and put into the room. *)
Theorem connect_completes_pair (E : Env) (user a b : MatchUser) (s : Match)
    (idx : Z) :
  lock s = false ->
  stage s <> FINISHED ->
  users s = [a; b] ->
  List.length (online s) = 2%nat ->
  find_idx (users s) (uid user) 0 = idx -> idx <> -1 ->
  py_index (online s) idx = Some false ->
  py_index (online s) (1 - idx) = Some true ->
  user_connected E user s =
    (Ret true,
     set_match_process (Some (mkProcess (is_with_ai s) true))
       (set_stage MATCH
          (set_waiting_process (mkWaiting false)
             (set_online [true; true]
                (set_users (set_z (users s) idx user) s)))),
     [Log Info "user is connected to room";
      EmitInit (paddle_of idx) (sid user);
      EnterRoom (sid user) (room_name s);
      TimerStop; RunnerStart]).
Proof.
  intros Hl Hst Hus Hon Hidx Hfound Hoff Hother. open_session s.
  destruct on as [|oa [|ob [|? ?]]]; try discriminate.
  cbn in Hfound, Hoff, Hother |- *.
  destruct (uid a =? uid user) eqn:Ha;
    [|destruct (uid b =? uid user) eqn:Hb; [|congruence]];
    unfold py_index in Hoff, Hother; cbn in Hoff, Hother;
    injection Hoff as ->; injection Hother as ->;
    destruct st; try congruence;
    unfold_methods; unfold py_index, py_setitem; py_step; reflexivity.
Qed.

Lemma connect_completes_pair_witness :
  user_connected env0 bob waiting0 =
    (Ret true,
     set_match_process (Some (mkProcess false true))
       (set_stage MATCH
          (set_waiting_process (mkWaiting false)
             (set_online [true; true] (set_users [alice; bob] waiting0)))),
     [Log Info "user is connected to room";
      EmitInit paddle2 "sidB"; EnterRoom "sidB" "match_1";
      TimerStop; RunnerStart]).
Proof.
  exact (connect_completes_pair env0 bob alice bob waiting0 1 eq_refl
           ltac:(discriminate) eq_refl eq_refl eq_refl ltac:(discriminate)
           eq_refl eq_refl).
Defined.

(** X7.  On a session of two seats that is not [FINISHED], the connect of
    an offline seat while the other seat is offline too marks the seat
    online, sets the stage to [WAITING] and starts the timer; no runner is
    created. *)
Theorem connect_first_of_pair (E : Env) (user a b : MatchUser) (s : Match)
    (idx : Z) :
  lock s = false ->
  stage s <> FINISHED ->
  users s = [a; b] ->
  online s = [false; false] ->
  find_idx (users s) (uid user) 0 = idx -> idx <> -1 ->
  user_connected E user s =
    (Ret true,
     set_waiting_process (mkWaiting true)
       (set_stage WAITING
          (set_online (set_z (online s) idx true)
             (set_users (set_z (users s) idx user) s))),
     [Log Info "user is connected to room";
      EmitInit (paddle_of idx) (sid user);
      EnterRoom (sid user) (room_name s);
      TimerStart]).
Proof.
  intros Hl Hst Hus Hon Hidx Hfound. open_session s.
  cbn in Hfound |- *.
  destruct (uid a =? uid user) eqn:Ha;
    [|destruct (uid b =? uid user) eqn:Hb; [|congruence]];
    destruct st; try congruence;
    unfold_methods; unfold py_index, py_setitem; py_step; reflexivity.
Qed.

Lemma connect_first_of_pair_witness :
  user_connected env0 alice decided0 =
    (Ret true,
     set_waiting_process (mkWaiting true)
       (set_stage WAITING
          (set_online [true; false] (set_users [alice; bob] decided0))),
     [Log Info "user is connected to room";
      EmitInit paddle1 "sidA"; EnterRoom "sidA" "match_1"; TimerStart]).
Proof.
  exact (connect_first_of_pair env0 alice alice bob decided0 0 eq_refl
           ltac:(discriminate) eq_refl eq_refl eq_refl ltac:(discriminate)).
Defined.

(** X8.  While only one seat is decided, the connect of that seat records
    its presence and nothing more: the stage stays as it is and neither the
    timer nor a runner is touched. *)
Theorem connect_single_seat (E : Env) (user a : MatchUser) (s : Match) :
  lock s = false ->
  stage s <> FINISHED ->
  users s = [a] -> online s = [false] ->
  uid a = uid user ->
  user_connected E user s =
    (Ret true, set_online [true] (set_users [user] s),
     [Log Info "user is connected to room";
      EmitInit paddle1 (sid user);
      EnterRoom (sid user) (room_name s)]).
Proof.
  intros Hl Hst Hus Hon Hid. open_session s.
  apply Z.eqb_eq in Hid.
  destruct st; try congruence;
    unfold_methods; unfold py_index, py_setitem; py_step; reflexivity.
Qed.

Lemma connect_single_seat_witness :
  user_connected env0 alice one_seat0 =
    (Ret true, set_online [true] (set_users [alice] one_seat0),
     [Log Info "user is connected to room";
      EmitInit paddle1 "sidA"; EnterRoom "sidA" "match_1"]).
Proof.
  exact (connect_single_seat env0 alice alice one_seat0 eq_refl
           ltac:(discriminate) eq_refl eq_refl eq_refl).
Defined.

(** ** Disconnecting *)

(** X9.  A disconnect while the stage is [NOT_STARTED] or [FINISHED] does
    nothing, whoever disconnects: the session is unchanged and no
    collaborator is called. *)
Theorem disconnect_outside_play_is_noop (E : Env) (user : MatchUser)
    (s : Match) :
  lock s = false ->
  stage s = NOT_STARTED \/ stage s = FINISHED ->
  user_disconnected E user s =
    (Ret tt, s,
     [Log Info "user is disconnected"; Log Info "but user is disconnected!"]).
Proof.
  intros Hl [Hst | Hst]; open_session s; unfold_methods; reflexivity.
Qed.

Lemma disconnect_outside_play_is_noop_witness :
  user_disconnected env0 alice solo0 =
    (Ret tt, solo0,
     [Log Info "user is disconnected"; Log Info "but user is disconnected!"]).
Proof.
  exact (disconnect_outside_play_is_noop env0 alice solo0 eq_refl
           (or_introl eq_refl)).
Defined.

(** X10.  A disconnect during [WAITING] of a seat that is online stops the
    timer, sets the stage to [FINISHED] and deletes that seat's room
    membership, and that is all: no winner is recorded, nothing is reported,
    and the session is not removed from the registry.  A disconnect of a
    seat that is not online changes nothing. *)
Theorem disconnect_while_waiting (E : Env) (user u : MatchUser) (s : Match)
    (present : bool) :
  lock s = false ->
  stage s = WAITING ->
  find_idx (users s) (uid user) 0 <> -1 ->
  py_index (users s) (find_idx (users s) (uid user) 0) = Some u ->
  py_index (online s) (find_idx (users s) (uid user) 0) = Some present ->
  user_disconnected E user s =
    if present then
      (Ret tt,
       set_stage FINISHED (set_waiting_process (mkWaiting false) s),
       [Log Info "user is disconnected"; TimerStop;
        DeleteRoomUser (uid u) (room_id (match_room (match_ s)))])
    else (Ret tt, s, [Log Info "user is disconnected"]).
Proof.
  intros Hl Hst Hidx Hu Hon. apply Z.eqb_neq in Hidx.
  open_session s. unfold_methods. py_step.
  destruct present; py_step; reflexivity.
Qed.

Lemma disconnect_while_waiting_witness :
  user_disconnected env0 alice waiting0 =
    (Ret tt,
     set_stage FINISHED (set_waiting_process (mkWaiting false) waiting0),
     [Log Info "user is disconnected"; TimerStop; DeleteRoomUser 10 5]).
Proof.
  exact (disconnect_while_waiting env0 alice alice waiting0 true eq_refl
           eq_refl ltac:(discriminate) eq_refl eq_refl).
Defined.

(** X11.  A disconnect during [MATCH] of a user found at seat [idx] of a
    two-seat session stops the runner, sets the stage to [FINISHED], deletes
    the leaving seat's room membership and runs [set_win] for the other
    seat.  Nobody's transport session is disconnected by it. *)
Theorem disconnect_during_match (E : Env) (user a b : MatchUser) (s : Match)
    (p : MatchProcess) (idx : Z) :
  lock s = false ->
  stage s = MATCH ->
  match_process s = Some p ->
  users s = [a; b] ->
  find_idx (users s) (uid user) 0 = idx -> idx <> -1 ->
  let loser := if idx =? 0 then a else b in
  let winner := if idx =? 0 then b else a in
  let stopped := set_match_process (Some (mkProcess (proc_with_ai p) false)) s in
  exists t,
    user_disconnected E user s = (Ret tt, set_stage FINISHED stopped, t) /\
    calls t =
      [RunnerStop; DeleteRoomUser (uid loser) (room_id (match_room (match_ s)))]
      ++ calls (set_win_trace E stopped (1 - idx) winner a b) /\
    winners t = [paddle_of (1 - idx)] /\
    filter is_disconnect t = [].
Proof.
  intros Hl Hst Hmp Hus Hidx Hfound. open_session s.
  cbn in Hfound |- *.
  destruct (uid a =? uid user) eqn:Ha;
    [|destruct (uid b =? uid user) eqn:Hb; [|congruence]];
    unfold set_win_trace, propagate, report, final_scores in *;
    unfold_methods; unfold py_index, py_setitem; py_step;
    destruct (post_ok E); py_step; destruct (winner_match m); py_step;
    eexists; repeat split; reflexivity.
Qed.

Lemma disconnect_during_match_witness :
  exists t,
    user_disconnected env0 bob playing0 =
      (Ret tt,
       set_stage FINISHED
         (set_match_process (Some (mkProcess false false)) playing0), t) /\
    calls t =
      [RunnerStop; DeleteRoomUser 20 5]
      ++ calls (set_win_trace env0
                  (set_match_process (Some (mkProcess false false)) playing0)
                  0 alice alice bob) /\
    winners t = [paddle1] /\
    filter is_disconnect t = [].
Proof.
  exact (disconnect_during_match env0 bob alice bob playing0
           (mkProcess false true) 1 eq_refl eq_refl eq_refl eq_refl eq_refl
           ltac:(discriminate)).
Defined.

(** ** The runner reports a winner *)

(** X12.  When the runner reports seat [w] as winner on a session that is
    not [FINISHED], [alert_winner] sets the stage to [FINISHED], runs
    [set_win] for [w] and [set_lose] for the other seat, and disconnects the
    transport session of the other seat and of nobody else. *)
Theorem runner_concluded_resolves (E : Env) (s : Match) (w : Z)
    (win los u0 u1 : MatchUser) :
  lock s = false ->
  stage s <> FINISHED ->
  py_index (users s) w = Some win -> py_index (users s) (1 - w) = Some los ->
  py_index (users s) 0 = Some u0 -> py_index (users s) 1 = Some u1 ->
  exists t,
    alert_winner E w s = (Ret tt, set_stage FINISHED s, t) /\
    forfeit_recorded s t w win los.
Proof.
  intros Hl Hst Hw Hlo H0 H1.
  assert (exists t,
    alert_winner E w s = (Ret tt, set_stage FINISHED s, t) /\
    calls t = calls (set_win_trace E s w win u0 u1)
              ++ [DeleteRoomUser (uid los) (room_id (match_room (match_ s)));
                  SioDisconnect (sid los)]) as (t & Hrun & Hcalls).
  { open_session s.
    unfold set_win_trace, propagate, report, final_scores.
    unfold_methods.
    destruct st; try congruence; py_step;
      destruct mp; destruct (post_ok E); py_step;
      destruct (winner_match m); py_step;
      eexists; split; reflexivity. }
  exists t. split; [exact Hrun|].
  eapply forfeit_recorded_intro; exact Hcalls.
Qed.

Lemma runner_concluded_resolves_witness :
  exists t,
    alert_winner env0 1 playing0 = (Ret tt, set_stage FINISHED playing0, t) /\
    forfeit_recorded playing0 t 1 bob alice.
Proof.
  exact (runner_concluded_resolves env0 playing0 1 bob alice alice bob
           eq_refl ltac:(discriminate) eq_refl eq_refl eq_refl eq_refl).
Defined.

Lemma py_index_in_range {A} (l : list A) (i : Z) (x : A) :
  py_index l i = Some x -> - len l <= i < len l.
Proof.
  unfold py_index, len.
  destruct ((0 <=? i) && (i <? Z.of_nat (List.length l))) eqn:H1.
  - apply andb_prop in H1. destruct H1 as [Ha Hb].
    apply Z.leb_le in Ha. apply Z.ltb_lt in Hb. lia.
  - destruct ((- Z.of_nat (List.length l) <=? i) && (i <? 0)) eqn:H2;
      [|discriminate].
    apply andb_prop in H2. destruct H2 as [Ha Hb].
    apply Z.leb_le in Ha. apply Z.ltb_lt in Hb. lia.
Qed.

(** X13.  [alert_winner] marks the session [FINISHED] before it looks at the
    seats.  If the index reported is not a seat of a full session (fewer
    than two users, or an index other than 0 and 1 on two users),
    [IndexError] escapes; the stage is [FINISHED] all the same, the lock is
    released, and no collaborator was called, so no winner is ever recorded
    for that session by the runner. *)
Theorem runner_concluded_bad_seat (E : Env) (s : Match) (w : Z) :
  lock s = false ->
  stage s <> FINISHED ->
  len (users s) <= 2 ->
  ~ (len (users s) = 2 /\ (w = 0 \/ w = 1)) ->
  exists t,
    alert_winner E w s = (Raise IndexError, set_stage FINISHED s, t) /\
    calls t = [].
Proof.
  intros Hl Hst Hle Hbad. open_session s. unfold_methods.
  remember (1 - w) as v eqn:Hv.
  assert (Hsum : v + w = 1) by lia. clear Hv.
  destruct st; try congruence; py_step.
  all: destruct (py_index us w) eqn:Hw; py_step;
    [|eexists; split; reflexivity].
  all: destruct (py_index us v) eqn:Hlo; py_step;
    [|eexists; split; reflexivity].
  all: exfalso; apply py_index_in_range in Hw, Hlo; unfold len in *;
    apply Hbad; lia.
Qed.

Lemma runner_concluded_bad_seat_witness :
  exists t,
    alert_winner env0 2 playing0 =
      (Raise IndexError, set_stage FINISHED playing0, t) /\
    calls t = [].
Proof.
  apply runner_concluded_bad_seat;
    [reflexivity | discriminate | discriminate | intros [_ [H | H]]; discriminate].
Defined.

(** X14.  Whatever [alert_winner] does on a first call, also when it
    raises, the stage is [FINISHED] afterwards, and every later call, for
    any seat, returns without changing the session or calling a
    collaborator. *)
Theorem runner_concluded_once (E E' : Env) (s : Match) (w w' : Z) :
  lock s = false ->
  stage (state_of (alert_winner E w s)) = FINISHED /\
  alert_winner E' w' (state_of (alert_winner E w s)) =
    (Ret tt, state_of (alert_winner E w s),
     [Log Info "self.stage is already FINISHED, returning `alert_winner`"]).
Proof.
  intros Hl.
  assert (Hs : state_of (alert_winner E w s) = s /\ stage s = FINISHED \/
               state_of (alert_winner E w s) = set_stage FINISHED s).
  { open_session s. unfold alert_winner, with_lock, bind, rd, wr, touch, log,
      effect, state_of. cbn.
    destruct st; cbn; auto.
    all: match goal with
         | |- context [set_win_and_lose ?E ?w ?s] =>
             destruct (set_win_and_lose_state E w s eq_refl) as [H | H];
             destruct (set_win_and_lose E w s) as [[o s'] t];
             unfold state_of in H; cbn in H; subst s'; cbn; auto
         end. }
  destruct Hs as [[-> Hfin] | ->].
  - split; [exact Hfin|]. open_session s. reflexivity.
  - split; [reflexivity|]. open_session s. reflexivity.
Qed.

Lemma runner_concluded_once_witness :
  stage (state_of (alert_winner env0 0 playing0)) = FINISHED /\
  alert_winner env0 1 (state_of (alert_winner env0 0 playing0)) =
    (Ret tt, state_of (alert_winner env0 0 playing0),
     [Log Info "self.stage is already FINISHED, returning `alert_winner`"]).
Proof. exact (runner_concluded_once env0 env0 playing0 0 1 eq_refl). Defined.

(** ** The AI joins *)

(** X15.  On a session with exactly one user, [ai_connected] seats the AI
    at seat 1 as online, stops the timer, sets the stage to [MATCH] and
    creates and starts the runner, whatever the stage was and whether or
    not the user at seat 0 is online; no error is logged. *)
Theorem ai_join_starts_match (E : Env) (s_id : string) (s : Match)
    (u : MatchUser) (present : bool) :
  lock s = false ->
  users s = [u] -> online s = [present] ->
  exists s' t,
    ai_connected E s_id s = (Ret tt, s', t) /\
    users s' = [u; mkUser (AI_ID E) s_id true] /\
    online s' = [present; true] /\
    stage s' = MATCH /\
    match_process s' = Some (mkProcess (is_with_ai s) true) /\
    waiting_process s' = mkWaiting false /\
    lock s' = false /\
    calls t = [EmitInit paddle2 s_id; EnterRoom s_id (room_name s);
               TimerStop; RunnerStart] /\
    filter is_error_log t = [].
Proof.
  intros Hl Hus Hon. open_session s. unfold_methods. cbn.
  do 2 eexists. repeat split; reflexivity.
Qed.

Lemma ai_join_starts_match_witness :
  exists s' t,
    ai_connected env0 "sidAI" one_seat0 = (Ret tt, s', t) /\
    users s' = [alice; mkUser 0 "sidAI" true] /\
    online s' = [false; true] /\
    stage s' = MATCH /\
    match_process s' = Some (mkProcess false true) /\
    waiting_process s' = mkWaiting false /\
    lock s' = false /\
    calls t = [EmitInit paddle2 "sidAI"; EnterRoom "sidAI" "match_1";
               TimerStop; RunnerStart] /\
    filter is_error_log t = [].
Proof.
  exact (ai_join_starts_match env0 "sidAI" one_seat0 alice false eq_refl
           eq_refl eq_refl).
Defined.

(** X16.  If the AI joins while the user at seat 0 is not yet online, the
    match starts without that user, and the user's later connect finds both
    seats online and starts a runner again: a second [MatchProcess] is
    created and started for the same session. *)
Theorem connect_after_ai_join_restarts_runner (E : Env) (s_id : string)
    (s : Match) (u user : MatchUser) :
  lock s = false ->
  users s = [u] -> online s = [false] ->
  uid user = uid u ->
  let joined := state_of (ai_connected E s_id s) in
  match_process joined = Some (mkProcess (is_with_ai s) true) /\
  user_connected E user joined =
    (Ret true,
     set_online [true; true]
       (set_users [user; mkUser (AI_ID E) s_id true] joined),
     [Log Info "user is connected to room";
      EmitInit paddle1 (sid user);
      EnterRoom (sid user) (room_name s);
      TimerStop; RunnerStart]).
Proof.
  intros Hl Hus Hon Hid. open_session s. symmetry in Hid.
  apply Z.eqb_eq in Hid. split; [reflexivity|].
  unfold_methods; unfold py_index, py_setitem, state_of; py_step.
  reflexivity.
Qed.

Lemma connect_after_ai_join_restarts_runner_witness :
  match_process (state_of (ai_connected env0 "sidAI" one_seat0)) =
    Some (mkProcess false true) /\
  user_connected env0 alice (state_of (ai_connected env0 "sidAI" one_seat0)) =
    (Ret true,
     set_online [true; true]
       (set_users [alice; mkUser 0 "sidAI" true]
          (state_of (ai_connected env0 "sidAI" one_seat0))),
     [Log Info "user is connected to room";
      EmitInit paddle1 "sidA"; EnterRoom "sidA" "match_1";
      TimerStop; RunnerStart]).
Proof.
  exact (connect_after_ai_join_restarts_runner env0 "sidAI" one_seat0 alice
           alice eq_refl eq_refl eq_refl eq_refl).
Defined.

(** ** The lock *)

(** X17.  Every handler other than [ai_connected], started on a free lock,
    ends with the lock free, also when it raises, and reads and writes
    [stage], [users], [online], [match_process] and [waiting_process] only
    while it holds the lock. *)
Theorem handlers_release_lock (E : Env) (ev : Event) (s : Match) :
  (forall s_id, ev <> AiJoin s_id) ->
  lock s = false ->
  lock (state_of (handle E ev s)) = false /\
  unguarded (state_of (handle E ev s)) = unguarded s.
Proof. intros Hev Hl. exact (handlers_hold_lock E ev Hev s Hl). Qed.

Lemma handlers_release_lock_witness :
  lock (state_of (handle env0 (Disconnect carol) playing0)) = false /\
  unguarded (state_of (handle env0 (Disconnect carol) playing0)) =
    unguarded playing0.
Proof.
  apply handlers_release_lock; [discriminate | reflexivity].
Defined.

(** ** Sessions without an AI join *)

(** X18.  From a new session, over any sequence of events that contains no
    AI join and in which the runner reports only once it exists, the stage
    after a prefix of the sequence is never later than the stage after the
    whole sequence: the stage never moves backward. *)
Theorem stage_never_regresses (E : Env) (name : TempMatch -> string)
    (m : TempMatch) (with_ai : bool) (pre post : list Event) :
  run_enabled E (pre ++ post) (Match_init name m with_ai) ->
  stage_value (stage (final (run E pre (Match_init name m with_ai))))
    <= stage_value
         (stage (final (run E (pre ++ post) (Match_init name m with_ai)))).
Proof.
  intros H. apply run_enabled_app in H. destruct H as [Hpre Hpost].
  rewrite final_run_app.
  apply run_forward; [|assumption].
  apply run_forward; [apply Inv_init|assumption].
Qed.

Lemma stage_never_regresses_witness :
  stage_value (stage (final (run env0 [DecideSeat alice; DecideSeat bob;
                                       Connect alice] session0)))
    <= stage_value (stage (final (run env0 late_loser session0))).
Proof.
  apply (stage_never_regresses env0 (fun _ => "match_1") final_match false
           [DecideSeat alice; DecideSeat bob; Connect alice]
           [TimerFire; Connect bob]).
  cbn. repeat split.
Defined.

(** X19.  From a new session, over any such sequence, the session reached
    has its lock free, as many presence flags as users, at most two users,
    is [NOT_STARTED] with no runner as long as fewer than two users are
    decided, and has both seats online whenever its stage is [MATCH]. *)
Theorem reachable_without_ai_join (E : Env) (name : TempMatch -> string)
    (m : TempMatch) (with_ai : bool) (evs : list Event) :
  run_enabled E evs (Match_init name m with_ai) ->
  let s := final (run E evs (Match_init name m with_ai)) in
  lock s = false /\
  List.length (users s) = List.length (online s) /\
  (List.length (users s) <= 2)%nat /\
  ((List.length (users s) < 2)%nat ->
   stage s = NOT_STARTED /\ match_process s = None) /\
  (stage s = MATCH -> online s = [true; true]).
Proof.
  intros H.
  exact (proj1 (run_forward E evs _ (Inv_init name m with_ai) H)).
Qed.

Lemma reachable_without_ai_join_witness :
  let s := final (run env0 full_match session0) in
  lock s = false /\
  List.length (users s) = List.length (online s) /\
  (List.length (users s) <= 2)%nat /\
  ((List.length (users s) < 2)%nat ->
   stage s = NOT_STARTED /\ match_process s = None) /\
  (stage s = MATCH -> online s = [true; true]).
Proof.
  apply (reachable_without_ai_join env0 (fun _ => "match_1") final_match
           false full_match).
  cbn. repeat split. discriminate.
Defined.

(** ** What is never called *)

Lemma never_ret {A} p (a : A) : never_emits p (ret a).
Proof. intros s. reflexivity. Qed.

Lemma never_raise {A} p (e : Exn) : never_emits p (@raise A e).
Proof. intros s. reflexivity. Qed.

Lemma never_attr {A} p (proj : Match -> A) : never_emits p (attr proj).
Proof. intros s. reflexivity. Qed.

Lemma never_rd {A} p f (proj : Match -> A) : never_emits p (rd f proj).
Proof. intros s. reflexivity. Qed.

Lemma never_wr p f upd : never_emits p (wr f upd).
Proof. intros s. reflexivity. Qed.

Lemma never_lift_index {A} p (o : option A) : never_emits p (lift_index o).
Proof. destruct o; intros s; reflexivity. Qed.

Lemma never_effect p (e : Effect) : p e = false -> never_emits p (effect e).
Proof. intros He s. cbn. rewrite He. reflexivity. Qed.

Lemma never_log p lvl msg :
  p (Log lvl msg) = false -> never_emits p (log lvl msg).
Proof. apply never_effect. Qed.

Lemma never_bind {A B} p (m : M A) (f : A -> M B) :
  never_emits p m -> (forall a, never_emits p (f a)) -> never_emits p (bind m f).
Proof.
  intros Hm Hf s. specialize (Hm s). unfold bind.
  destruct (m s) as [[[a | e | ] s1] t1]; cbn in *; try assumption.
  specialize (Hf a s1). destruct (f a s1) as [[o s2] t2]; cbn in *.
  rewrite filter_app, Hm, Hf. reflexivity.
Qed.

Lemma never_with_lock {A} p (body : M A) :
  never_emits p body -> never_emits p (with_lock body).
Proof.
  intros Hb s. unfold with_lock. destruct (lock s); [reflexivity|].
  specialize (Hb (set_lock true s)).
  destruct (body (set_lock true s)) as [[o s1] t]. exact Hb.
Qed.

Ltac walk_calls :=
  repeat first
    [ apply never_bind; [|intros ?]
    | apply never_with_lock
    | match goal with
      | |- never_emits _ (if ?c then _ else _) => destruct c
      | |- never_emits _ (match ?x with _ => _ end) => destruct x
      end
    | apply never_ret | apply never_raise | apply never_attr | apply never_rd
    | apply never_wr | apply never_lift_index
    | apply never_effect; reflexivity ].

Lemma set_win_never_disconnects E i : never_emits is_disconnect (set_win E i).
Proof. unfold set_win, users_at, log. walk_calls. Qed.

Lemma set_lose_never_disconnects i : never_emits is_disconnect (set_lose i).
Proof. unfold set_lose, users_at. walk_calls. Qed.

(** X20.  Only the timer forfeit and the runner's report ever disconnect a
    transport session: the handlers of decide-seat, connect, AI join and
    disconnect never call [sio_disconnect], in whatever session and stage
    they run; in particular a late connect that wins, and a win by the
    opponent's disconnect, leave every session connected. *)
Theorem only_forfeit_and_report_disconnect (E : Env) (ev : Event) (s : Match) :
  ev <> TimerFire ->
  (forall w, ev <> RunnerConcluded w) ->
  filter is_disconnect (snd (handle E ev s)) = [].
Proof.
  intros Htimer Hrunner. revert s.
  change (never_emits is_disconnect (handle E ev)).
  destruct ev; cbn [handle]; try congruence;
    try (exfalso; eapply Hrunner; reflexivity).
  - unfold user_decided, online_at, set_stage_waiting, waiting_start, log.
    walk_calls.
  - unfold user_connected, get_user_idx, online_at, set_stage_waiting,
      set_stage_match, waiting_start, waiting_stop, process_start,
      process_switch, log.
    walk_calls; apply set_win_never_disconnects.
  - unfold ai_connected, ai_connected_check, ai_connected_bind,
      ai_connected_locked, set_stage_match, waiting_stop, process_start,
      process_switch, log.
    walk_calls.
  - unfold user_disconnected, get_user_idx, online_at, waiting_stop,
      process_stop, process_switch, log.
    walk_calls;
      first [apply set_win_never_disconnects | apply set_lose_never_disconnects].
Qed.

Lemma only_forfeit_and_report_disconnect_witness :
  filter is_disconnect (snd (handle env0 (Connect bob) abandoned0)) = [].
Proof.
  apply only_forfeit_and_report_disconnect; discriminate.
Defined.

(** X21.  Once the lock is held and the seats can be read, [set_win] makes
    the same calls whoever wins: one match-concluded event to the room, one
    POST whose players are always seat 0 and seat 1 in that order, then
    either the registration of the winner into the next match (no room is
    deleted) or, without a next match, the deletion of the winner's
    memberships and of the room, and last the removal of the session from
    the registry.  It disconnects nobody. *)
Theorem set_win_calls (E : Env) (s : Match) (w : Z)
    (win los u0 u1 : MatchUser) :
  lock s = true ->
  py_index (users s) w = Some win -> py_index (users s) (1 - w) = Some los ->
  py_index (users s) 0 = Some u0 -> py_index (users s) 1 = Some u1 ->
  exists t d,
    set_win E w s = (Ret tt, set_stage FINISHED s, t) /\
    player1_id d = uid u0 /\ player2_id d = uid u1 /\ winner_id d = uid win /\
    (player1_score d, player2_score d) =
      match match_process s with Some _ => get_scores E | None => (0, 0) end /\
    calls t =
      [EmitGameOver (paddle_of w) (player1_score d) (player2_score d)
         (room_name s);
       Post d]
      ++ match winner_match (match_ s) with
         | Some next =>
             [CreateMatchUser (uid win) (match_id next); MatchDecided win next]
         | None =>
             [DeleteRoomUsersOf (uid win);
              DeleteRoom (room_name_of (match_room (match_ s)))]
         end
      ++ [DeleteMatchId (match_id (match_ s))].
Proof.
  intros Hl Hw Hlo H0 H1.
  exists (set_win_trace E s w win u0 u1), (report E s win u0 u1).
  split; [apply set_win_locked with (los := los); assumption|].
  repeat split.
  - unfold report, final_scores; cbn.
    destruct (match_process s); [destruct (get_scores E)|]; reflexivity.
  - rewrite calls_set_win_trace. unfold propagate.
    destruct (winner_match (match_ s)); reflexivity.
Qed.

Lemma set_win_calls_witness :
  exists t d,
    set_win env0 0 playing0_locked =
      (Ret tt, set_stage FINISHED playing0_locked, t) /\
    player1_id d = 10 /\ player2_id d = 20 /\ winner_id d = 10 /\
    (player1_score d, player2_score d) = (11, 7) /\
    calls t =
      [EmitGameOver paddle1 (player1_score d) (player2_score d) "match_1";
       Post d; DeleteRoomUsersOf 10; DeleteRoom "room_5"; DeleteMatchId 1].
Proof.
  exact (set_win_calls env0 playing0_locked 0 alice bob alice bob eq_refl
           eq_refl eq_refl eq_refl eq_refl).
Defined.

(** ** Asking whether a user is connected *)

Lemma len_app {A} (l1 l2 : list A) : len (l1 ++ l2) = len l1 + len l2.
Proof. unfold len. rewrite length_app. lia. Qed.

Lemma nth_z_middle {A} (pre rest : list A) (x : A) :
  nth_z (pre ++ x :: rest) (len pre) = Some x.
Proof.
  induction pre as [|a pre IH]; [reflexivity|].
  cbn [app nth_z]. unfold len in *. cbn [List.length].
  rewrite Nat2Z.inj_succ.
  replace (Z.succ (Z.of_nat (List.length pre)) =? 0) with false
    by (symmetry; apply Z.eqb_neq; lia).
  replace (Z.succ (Z.of_nat (List.length pre)) - 1)
    with (Z.of_nat (List.length pre)) by lia.
  exact IH.
Qed.

Lemma py_index_middle {A} (pre rest : list A) (x : A) :
  py_index (pre ++ x :: rest) (len pre) = Some x.
Proof.
  unfold py_index.
  replace ((0 <=? len pre) &&
           (len pre <? Z.of_nat (List.length (pre ++ x :: rest)))) with true.
  - apply nth_z_middle.
  - symmetry. apply andb_true_intro. unfold len. rewrite length_app.
    cbn [List.length]. split; [apply Z.leb_le | apply Z.ltb_lt]; lia.
Qed.

Lemma scan_connected_locked (us : list MatchUser) (user_id : Z) :
  forall (pre rest : list bool) (s : Match),
    lock s = true ->
    online s = pre ++ rest ->
    List.length us = List.length rest ->
    scan_connected us (len pre) user_id s =
      (Ret (connected_among us rest user_id), s, []).
Proof.
  induction us as [|a us IH]; intros pre rest s Hl Hon Hlen.
  - reflexivity.
  - destruct rest as [|o rest]; [discriminate|].
    injection Hlen as Hlen.
    assert (Hnext : scan_connected us (len pre + 1) user_id s =
                    (Ret (connected_among us rest user_id), s, [])).
    { replace (len pre + 1) with (len (pre ++ [o]))
        by (rewrite len_app; reflexivity).
      apply IH; [exact Hl | rewrite <- app_assoc; exact Hon | exact Hlen]. }
    cbn [scan_connected]. unfold connected_among. cbn [combine existsb fst snd].
    fold (connected_among us rest user_id).
    destruct (uid a =? user_id); cbn [andb orb]; [|exact Hnext].
    unfold online_at, bind, rd, touch, lift_index. rewrite Hl, Hon.
    rewrite py_index_middle. cbn [ret].
    destruct o; cbn [orb]; [reflexivity|].
    rewrite Hnext. reflexivity.
Qed.

(** X22.  On a session with as many presence flags as users,
    [is_user_connected] returns [True] exactly when some seat holds a user
    with the identity asked for and is flagged online, looking at every
    seat with that identity and not only the first; it changes nothing and
    calls no collaborator. *)
Theorem is_user_connected_spec (user_id : Z) (s : Match) :
  lock s = false ->
  List.length (users s) = List.length (online s) ->
  is_user_connected user_id s =
    (Ret (existsb (fun p => (uid (fst p) =? user_id) && snd p)
            (combine (users s) (online s))), s, []).
Proof.
  intros Hl Hlen. open_session s.
  pose proof (scan_connected_locked us user_id [] on
                (set_lock true (mkMatch st m rn ai us on mp wp false ug))
                eq_refl eq_refl Hlen) as H.
  change (len []) with 0 in H.
  unfold is_user_connected, with_lock, bind, rd, touch. cbn.
  rewrite H. reflexivity.
Qed.

Lemma is_user_connected_spec_witness :
  is_user_connected 20 waiting0 = (Ret false, waiting0, []).
Proof. exact (is_user_connected_spec 20 waiting0 eq_refl eq_refl). Defined.

(** X23.  After a connect that returned [True] on a session of at most two
    seats with as many flags as users, [is_user_connected] answers [True]
    for the identity that connected. *)
Theorem connected_after_connect (E : Env) (user : MatchUser) (s : Match) :
  lock s = false ->
  List.length (users s) = List.length (online s) ->
  (List.length (users s) <= 2)%nat ->
  fst (fst (user_connected E user s)) = Ret true ->
  is_user_connected (uid user) (state_of (user_connected E user s)) =
    (Ret true, state_of (user_connected E user s), []).
Proof.
  intros Hl Hlen Hle. open_session s.
  destruct us as [|a [|b [|? ?]]]; destruct on as [|oa [|ob [|? ?]]];
    try discriminate; try (exfalso; cbn in *; lia); clear Hlen Hle.
  all: try destruct oa; try destruct ob; destruct st.
  all: unfold_handlers; unfold is_user_connected, with_lock, bind, rd, touch,
         online_at, lift_index, ret, state_of;
       unfold py_index, py_setitem; cbn.
  all: repeat first
         [ rewrite Z.eqb_refl; cbn
         | match goal with
           | |- context [uid ?x =? uid ?y] =>
               let H := fresh "Hid" in destruct (uid x =? uid y) eqn:H; cbn
           end ].
  all: try discriminate; try (intros _; reflexivity).
  all: resolved; try discriminate; intros _;
    repeat (rewrite ?Z.eqb_refl, ?Hid; cbn); reflexivity.
Qed.

Lemma connected_after_connect_witness :
  is_user_connected 20 (state_of (user_connected env0 bob waiting0)) =
    (Ret true, state_of (user_connected env0 bob waiting0), []).
Proof.
  exact (connected_after_connect env0 bob waiting0 eq_refl eq_refl
           (le_n 2) eq_refl).
Defined.

(** ** Routing a user into a match *)

Lemma dict_get_set_same (k : Z) (v : Match) (d : MatchDict) :
  dict_get k (dict_set k v d) = Some v.
Proof.
  induction d as [|[k' v'] d IH]; cbn.
  - rewrite Z.eqb_refl. reflexivity.
  - destruct (k' =? k) eqn:Hk; cbn; rewrite ?Z.eqb_refl, ?Hk; auto.
Qed.

Lemma dict_get_set_other (k k0 : Z) (v : Match) (d : MatchDict) :
  k0 <> k -> dict_get k0 (dict_set k v d) = dict_get k0 d.
Proof.
  intros Hne. induction d as [|[k' v'] d IH]; cbn.
  - replace (k =? k0) with false by (symmetry; apply Z.eqb_neq; lia).
    reflexivity.
  - destruct (k' =? k) eqn:Hk; cbn.
    + apply Z.eqb_eq in Hk. subst k'.
      replace (k =? k0) with false by (symmetry; apply Z.eqb_neq; lia).
      reflexivity.
    + destruct (k' =? k0); auto.
Qed.

Lemma user_decided_seats (user : MatchUser) (s : Match) :
  lock s = false -> len (users s) < 2 ->
  fst (fst (user_decided user s)) = Ret true /\
  users (state_of (user_decided user s)) = users s ++ [user] /\
  online (state_of (user_decided user s)) = online s ++ [false].
Proof.
  intros Hl Hfew. open_session s. unfold len in Hfew.
  destruct us as [|a [|b us]]; cbn [List.length] in Hfew; [| |lia];
    destruct on as [|o on]; unfold_methods; unfold py_index, state_of; cbn;
    try destruct o; cbn; repeat split.
Qed.

(** X24.  [match_decided] creates the [Match] of a match the first time the
    match is referred to and seats the user there; on an existing session
    with a free seat it seats the user in that session.  In both cases the
    user goes to the end of the seats with presence [False], and no other
    entry of the dict changes. *)
Theorem match_decided_seats_user (name : TempMatch -> string)
    (d : MatchDict) (user : MatchUser) (m : TempMatch) :
  match dict_get (match_id m) d with
  | Some s => lock s = false /\ len (users s) < 2
  | None => True
  end ->
  let before :=
    match dict_get (match_id m) d with
    | Some s => s
    | None => Match_init name m false
    end in
  exists d' t s',
    match_decided name d user m = (Ret tt, d', t) /\
    dict_get (match_id m) d' = Some s' /\
    users s' = users before ++ [user] /\
    online s' = online before ++ [false] /\
    forall k, k <> match_id m -> dict_get k d' = dict_get k d.
Proof.
  intros Hpre. cbn zeta. unfold match_decided.
  set (before := match dict_get (match_id m) d with
                 | Some s => s
                 | None => Match_init name m false
                 end).
  assert (Hok : lock before = false /\ len (users before) < 2).
  { subst before. destruct (dict_get (match_id m) d); [exact Hpre|].
    split; reflexivity. }
  destruct Hok as [Hl Hfew].
  destruct (user_decided_seats user before Hl Hfew) as (Ho & Hu & Hon).
  unfold state_of in *.
  destruct (user_decided user before) as [[o s'] t]. cbn in Ho, Hu, Hon.
  subst o. exists (dict_set (match_id m) s' d), t, s'.
  repeat split; auto using dict_get_set_same.
  intros k Hk. apply dict_get_set_other. exact Hk.
Qed.

Lemma match_decided_seats_user_witness :
  exists d' t s',
    match_decided (fun _ => "match_2") [(1, playing0)] alice next_match =
      (Ret tt, d', t) /\
    dict_get 2 d' = Some s' /\
    users s' = [alice] /\ online s' = [false] /\
    forall k, k <> 2 -> dict_get k d' = dict_get k [(1, playing0)].
Proof.
  exact (match_decided_seats_user (fun _ => "match_2") [(1, playing0)] alice
           next_match I).
Defined.

(** X25.  [match_decided] drops the result of [user_decided]: when the
    session of the match already has two users it returns normally, as it
    does after seating a user, while the user is not seated and every
    lookup in the dict gives what it gave before. *)
Theorem match_decided_drops_third (name : TempMatch -> string)
    (d : MatchDict) (user : MatchUser) (m : TempMatch) (s : Match) :
  dict_get (match_id m) d = Some s ->
  lock s = false ->
  2 <= len (users s) ->
  exists d' t,
    match_decided name d user m = (Ret tt, d', t) /\
    calls t = [] /\
    forall k, dict_get k d' = dict_get k d.
Proof.
  intros Hget Hl Hfull. unfold match_decided. rewrite Hget.
  destruct (user_decided_full user s Hl Hfull) as (t & -> & Hcalls).
  exists (dict_set (match_id m) s d), t. repeat split; [exact Hcalls|].
  intros k. destruct (Z.eq_dec k (match_id m)) as [-> | Hk].
  - rewrite dict_get_set_same. symmetry. exact Hget.
  - apply dict_get_set_other. exact Hk.
Qed.

Lemma match_decided_drops_third_witness :
  exists d' t,
    match_decided (fun _ => "match_1") [(1, playing0)] carol final_match =
      (Ret tt, d', t) /\
    calls t = [] /\
    forall k, dict_get k d' = dict_get k [(1, playing0)].
Proof.
  exact (match_decided_drops_third (fun _ => "match_1") [(1, playing0)] carol
           final_match playing0 eq_refl eq_refl ltac:(discriminate)).
Defined.


(** X26.  Two users routed one after the other into a match that has no
    session yet end up in one new session, at seats 0 and 1 in the order of
    the calls, both offline; the session is still [NOT_STARTED] and its
    timer has not been started. *)
Theorem match_decided_twice (name : TempMatch -> string) (d : MatchDict)
    (u1 u2 : MatchUser) (m : TempMatch) :
  dict_get (match_id m) d = None ->
  let d1 := snd (fst (match_decided name d u1 m)) in
  let d2 := snd (fst (match_decided name d1 u2 m)) in
  exists s',
    dict_get (match_id m) d2 = Some s' /\
    users s' = [u1; u2] /\ online s' = [false; false] /\
    stage s' = NOT_STARTED /\ waiting_process s' = mkWaiting false /\
    forall k, k <> match_id m -> dict_get k d2 = dict_get k d.
Proof.
  intros Hnone d1 d2.
  assert (H1 : d1 = dict_set (match_id m)
                 (set_online [false] (set_users [u1] (Match_init name m false)))
                 d).
  { subst d1. unfold match_decided. rewrite Hnone. reflexivity. }
  assert (H2 : d2 = dict_set (match_id m)
                 (set_online [false; false]
                    (set_users [u1; u2] (Match_init name m false)))
                 d1).
  { subst d2. unfold match_decided. rewrite H1, dict_get_set_same.
    reflexivity. }
  eexists. split; [rewrite H2; apply dict_get_set_same|].
  repeat split.
  intros k Hk. rewrite H2, H1, !dict_get_set_other by exact Hk. reflexivity.
Qed.

Lemma match_decided_twice_witness :
  exists s',
    dict_get 2 (snd (fst (match_decided (fun _ => "match_2")
                   (snd (fst (match_decided (fun _ => "match_2")
                                [(1, playing0)] alice next_match)))
                   bob next_match))) = Some s' /\
    users s' = [alice; bob] /\ online s' = [false; false] /\
    stage s' = NOT_STARTED /\ waiting_process s' = mkWaiting false /\
    forall k, k <> 2 ->
      dict_get k (snd (fst (match_decided (fun _ => "match_2")
                   (snd (fst (match_decided (fun _ => "match_2")
                                [(1, playing0)] alice next_match)))
                   bob next_match))) = dict_get k [(1, playing0)].
Proof.
  exact (match_decided_twice (fun _ => "match_2") [(1, playing0)] alice bob
           next_match eq_refl).
Defined.

(** ** Handlers that return *)

Ltac returns_by :=
  unfold_handlers; unfold py_index, py_setitem; cbn;
  repeat (first
    [ erewrite set_win_and_lose_locked by reflexivity
    | erewrite set_win_locked by reflexivity
    | erewrite set_lose_locked by reflexivity
    | match goal with
      | |- context [uid ?a =? uid ?b] => destruct (uid a =? uid b) eqn:?
      | |- context [negb ?b] => is_var b; destruct b
      | |- context [if ?c then _ else _] => is_var c; destruct c
      | |- context [match ?x with _ => _ end] => is_var x; destruct x
      end ]; cbn);
  try (eexists; reflexivity).

Lemma runner_exists_forward E ev s :
  Inv s -> (stage s = MATCH -> match_process s <> None) -> enabled ev s ->
  stage (state_of (handle E ev s)) = MATCH ->
  match_process (state_of (handle E ev s)) <> None.
Proof.
  intros (Hl & Hlen & Hle & Hfew & Hm) Hmp Hev.
  destruct ev; cbn [handle enabled] in *;
    try rewrite (state_of_bind_ret _ (fun _ => VNone));
    try rewrite (state_of_bind_ret _ VBool);
    try contradiction; open_session s.
  - shape_session us on Hfew; forward_by.
  - shape_session us on Hfew;
      try (destruct st; try (specialize (Hm eq_refl); injection Hm as -> ->));
      unfold_handlers; unfold py_index, py_setitem; cbn;
      repeat match goal with
        | |- context [uid ?a =? uid ?b] => destruct (uid a =? uid b); cbn
        end;
      forward_by.
  - shape_session us on Hfew;
      try (destruct st; try (specialize (Hm eq_refl); injection Hm as -> ->));
      unfold_handlers; unfold py_index, py_setitem; cbn;
      repeat match goal with
        | |- context [uid ?a =? uid ?b] => destruct (uid a =? uid b); cbn
        end;
      forward_by.
  - shape_session us on Hfew;
      try (destruct st; try (specialize (Hm eq_refl); injection Hm as -> ->));
      forward_by.
  - shape_session us on Hfew; try congruence;
      try (destruct st; try (specialize (Hm eq_refl); injection Hm as -> ->));
      forward_by.
Qed.

Lemma handle_returns E ev s :
  Inv s -> (stage s = MATCH -> match_process s <> None) ->
  well_addressed ev s ->
  exists v, fst (fst (handle E ev s)) = Ret v.
Proof.
  intros (Hl & Hlen & Hle & Hfew & Hm) Hmp Hev. open_session s.
  destruct ev; cbn [well_addressed] in Hev; try contradiction.
  - shape_session us on Hfew; returns_by.
  - shape_session us on Hfew;
      try (destruct st; try (specialize (Hm eq_refl); injection Hm as -> ->));
      returns_by.
  - cbn in Hev. revert Hev.
    shape_session us on Hfew;
      try (destruct st; try (specialize (Hm eq_refl); injection Hm as -> ->;
                             specialize (Hmp eq_refl)));
      returns_by;
      intros Hev; try congruence; exfalso; apply Hev; reflexivity.
  - shape_session us on Hfew;
      try (destruct st; try (specialize (Hm eq_refl); injection Hm as -> ->));
      returns_by.
  - destruct Hev as [Hrun [-> | ->]]; cbn in Hrun;
      shape_session us on Hfew; try congruence;
      try (destruct st; try (specialize (Hm eq_refl); injection Hm as -> ->));
      returns_by.
Qed.

Lemma well_addressed_enabled ev s : well_addressed ev s -> enabled ev s.
Proof. destruct ev; cbn; tauto. Qed.

Lemma outcomes_run_cons E ev rest s :
  outcomes (run E (ev :: rest) s) =
    fst (fst (handle E ev s)) :: outcomes (run E rest (state_of (handle E ev s))).
Proof.
  unfold outcomes, state_of. cbn [run].
  destruct (handle E ev s) as [[o s1] t1]. cbn [fst snd].
  destruct (run E rest s1) as [[s2 t2] os]. reflexivity.
Qed.

Lemma run_returns E evs s :
  Inv s -> (stage s = MATCH -> match_process s <> None) ->
  run_addressed E evs s ->
  Forall (fun o => exists v, o = Ret v) (outcomes (run E evs s)).
Proof.
  revert s. induction evs as [|ev rest IH]; intros s HI Hmp Hrun.
  - constructor.
  - destruct Hrun as [Hev Hrest]. rewrite outcomes_run_cons.
    pose proof (well_addressed_enabled ev s Hev) as Hen. constructor.
    + apply handle_returns; assumption.
    + apply IH; [|apply runner_exists_forward; assumption|exact Hrest].
      apply step_forward; assumption.
Qed.

(** X27.  From a new session, over any sequence of events without an AI
    join in which a disconnect during a match comes from a seated user and
    the runner reports only once it exists and only seat 0 or seat 1, every
    handler returns: no exception escapes and no call blocks on the lock. *)
Theorem no_exception_escapes (E : Env) (name : TempMatch -> string)
    (m : TempMatch) (with_ai : bool) (evs : list Event) :
  run_addressed E evs (Match_init name m with_ai) ->
  Forall (fun o => exists v, o = Ret v)
         (outcomes (run E evs (Match_init name m with_ai))).
Proof.
  intros H. apply run_returns; [apply Inv_init|discriminate|exact H].
Qed.

Lemma no_exception_escapes_witness :
  Forall (fun o => exists v, o = Ret v) (outcomes (run env0 full_match session0)).
Proof.
  apply (no_exception_escapes env0 (fun _ => "match_1") final_match false
           full_match).
  cbn. repeat split; try discriminate. left. reflexivity.
Defined.

(** ** One identity at both seats *)

(** X28.  [user_decided] does not compare identities, and [user_connected]
    addresses the first seat that holds the identity.  So when both seats
    hold the same identity, no connect ever changes the presence flag of
    seat 1, whoever sends it and in whatever stage. *)
Theorem duplicate_identity_never_reaches_seat_1 (E : Env)
    (user a b : MatchUser) (s : Match) :
  lock s = false ->
  users s = [a; b] ->
  uid a = uid b ->
  List.length (online s) = 2%nat ->
  nth_z (online (state_of (user_connected E user s))) 1 = nth_z (online s) 1.
Proof.
  intros Hl Hus Hid Hon. open_session s.
  destruct on as [|oa [|ob [|? ?]]]; try discriminate.
  destruct oa; destruct st;
    unfold_handlers; unfold py_index, py_setitem, state_of; cbn;
    rewrite <- ?Hid;
    destruct (uid a =? uid user); cbn; try reflexivity;
    try destruct ob; cbn; try reflexivity;
    resolved; reflexivity.
Qed.

Lemma duplicate_identity_never_reaches_seat_1_witness :
  nth_z (online (state_of (user_connected env0 alice
                             (set_users [alice; alice] decided0)))) 1 =
  nth_z (online (set_users [alice; alice] decided0)) 1.
Proof.
  exact (duplicate_identity_never_reaches_seat_1 env0 alice alice alice
           (set_users [alice; alice] decided0) eq_refl eq_refl eq_refl eq_refl).
Defined.
